(** * HTTP location handler of the Rekall agent

    A shallow embedding of [rekall_agent/locations/http.py]: the
    [HTTPLocation] class, its remote operations, the conditional download
    into the local cache ([get_local_filename]) and the optimistic
    read-modify-write loop ([read_modify_write_local_file]).

    Python objects with mutable state (the cache, the local file system, the
    HTTP session, the completion routines that were called) live in one
    [World] record which every operation threads; an operation either returns
    a value or raises. *)

From Stdlib Require Import ZArith Lia Ascii String.
From stdpp Require Import gmap strings list fin_maps.

Open Scope string_scope.
Open Scope Z_scope.

(** ** Data model *)

(** A generation is the token [json.loads] extracts from an ETag header. *)
Abbreviation Gen := string.

Abbreviation Headers := (gmap string string).
Abbreviation Params := (gmap string string).
Abbreviation Kwargs := (gmap string string).
Abbreviation Files := (gmap string string).

Inductive Verb := GET | PUT.

(** What [requests_session.get] / [.put] is called with. [req_data] is the
    content of the file object handed over as [data=] ([None] when the
    argument is absent or is Python's [None]). *)
Record Request := {
  verb : Verb;
  req_url : string;
  req_params : Params;
  req_headers : Headers;
  req_data : option string;
  req_stream : bool
}.

(** [resp.headers["ETag"]] followed by [json.loads]: the header may be
    missing (KeyError), may not parse (ValueError), or decodes to a token. *)
Inductive ETag :=
| ETagMissing
| ETagMalformed
| ETagToken (g : Gen).

(** The attributes of a [requests.Response] the handler reads. [ok] is the
    library's own verdict on the status code; the handler never computes it,
    so it is kept as an attribute of its own. In the requests library
    [ok] is false exactly for the 4xx and 5xx codes ([requests_ok]). *)
Record Response := {
  status_code : Z;
  ok : bool;
  content : string;
  text : string;
  etag : ETag
}.

Definition requests_ok (r : Response) : Prop :=
  ok r = negb ((400 <=? status_code r) && (status_code r <? 600)).

Abbreviation Exchange := (Request * Response)%type.

(** The fields of the [URLPolicy] schema. *)
Record URLPolicy := {
  policy_path_prefix : string;
  policy_path_template : string;
  expires : Z;
  methods : list string;
  public : bool
}.

(** The fields of the [HTTPLocation] schema. *)
Record HTTPLocation := {
  base : string;
  path_prefix : string;
  path_template : string;
  policy : string;
  signature : string
}.

(** [location.Status(code, message)]. *)
Record Status := {
  code : Z;
  message : option string
}.

Inductive Exn :=
| IOError (msg : string)
| OSError (path : string)
| KeyError (key : string)
| ValueError
| TypeError
| AttributeError
| CallbackError (tag : string).

(** The modification callback receives the file name and may do anything to
    the local files; it ends normally or raises. *)
Abbreviation ModificationCb := (string -> Files -> option Exn * Files).

(** The Python values the operations return. *)
Inductive PyVal :=
| PNone
| PBool (b : bool)
| PStr (s : string).

Record World := {
  cache : gmap string Gen;      (* LocalCache: canonical path -> generation *)
  files : Files;                (* local file system: path -> content *)
  wire : list Exchange;         (* requests sent and their answers, oldest first *)
  slept : list nat;             (* time.sleep calls, in units of 0.1 s *)
  delivered : list Status       (* statuses handed to completion routines *)
}.

Definition with_cache (c : gmap string Gen) (w : World) : World :=
  {| cache := c; files := files w; wire := wire w; slept := slept w;
     delivered := delivered w |}.

Definition with_files (f : Files) (w : World) : World :=
  {| cache := cache w; files := f; wire := wire w; slept := slept w;
     delivered := delivered w |}.

Definition with_wire (l : list Exchange) (w : World) : World :=
  {| cache := cache w; files := files w; wire := l; slept := slept w;
     delivered := delivered w |}.

Definition with_slept (l : list nat) (w : World) : World :=
  {| cache := cache w; files := files w; wire := wire w; slept := l;
     delivered := delivered w |}.

Definition with_delivered (l : list Status) (w : World) : World :=
  {| cache := cache w; files := files w; wire := wire w; slept := slept w;
     delivered := l |}.

(** ** Computations that thread the world and may raise *)

Inductive Outcome (A : Type) :=
| Done (a : A)
| Raised (e : Exn).
Arguments Done {A} a.
Arguments Raised {A} e.

Definition M (A : Type) : Type := World -> Outcome A * World.

#[global] Instance M_ret : MRet M := fun A a w => (Done a, w).

#[global] Instance M_bind : MBind M := fun A B f m w =>
  match m w with
  | (Done a, w') => f a w'
  | (Raised e, w') => (Raised e, w')
  end.

Definition raise {A : Type} (e : Exn) : M A := fun w => (Raised e, w).

(** Python truth values of the objects the handler tests with [if x:]. *)
Definition truthy_str (s : string) : bool :=
  match s with EmptyString => false | _ => true end.

Definition truthy_opt_str (o : option string) : bool :=
  match o with Some s => truthy_str s | None => false end.

Definition truthy_opt_Z (o : option Z) : bool :=
  match o with Some z => negb (z =? 0) | None => false end.

(** ** Collaborators

    Everything the class obtains from its session, its configuration and the
    libraries it imports. *)
Class Env := {
  (** The pooled requests session together with the server behind it: the
      answer to a request, given the exchanges made so far. *)
  transport : list Exchange -> Request -> Response;
  (** [tempfile.mkstemp]: the name of the file created. *)
  mkstemp : Files -> string;
  (** Where the cache keeps its copy of a path at a generation. *)
  cache_file : string -> option Gen -> string;
  b64encode : string -> string;
  (** [utils.join_path]. *)
  join_path : list string -> string;
  (** [str.format] of a path template. *)
  str_format : string -> Kwargs -> string;
  (** [wsgiref.handlers.format_date_time]. *)
  format_date_time : Z -> string;
  (** [json.loads] of a listing: the elements of the array, or [None] when
      decoding raises. *)
  json_loads : string -> option (list string);
  (** [config.client.writeback.client_id] and [config.client.nonce]. *)
  client_id : string;
  nonce : string;
  (** [config.server.base_url] and [config.server.private_key.sign]. *)
  server_base_url : string;
  sign : string -> string;
  (** [policy.to_json()]. *)
  to_json : URLPolicy -> string;
  (** [str(self)], as interpolated by ["%s" % self]. *)
  str_of_location : HTTPLocation -> string
}.

Section Handler.
Context {env : Env}.

(** *** File system and transport primitives *)

Definition open_rb (path : string) : M string := fun w =>
  match files w !! path with
  | Some data => (Done data, w)
  | None => (Raised (IOError path), w)
  end.

Definition unlink (path : string) : M unit := fun w =>
  match files w !! path with
  | Some _ => (Done tt, with_files (delete path (files w)) w)
  | None => (Raised (OSError path), w)
  end.

Definition send (req : Request) : M Response := fun w =>
  let resp := transport (wire w) req in
  (Done resp, with_wire (wire w ++ [(req, resp)]) w).

Definition get_request (url : string) (params : Params) (headers : Headers)
    (stream : bool) : Request :=
  {| verb := GET; req_url := url; req_params := params;
     req_headers := headers; req_data := None; req_stream := stream |}.

Definition put_request (url : string) (data : option string) (params : Params)
    (headers : Headers) : Request :=
  {| verb := PUT; req_url := url; req_params := params;
     req_headers := headers; req_data := data; req_stream := false |}.

Definition http_get (url : string) (params : Params) (headers : Headers)
    (stream : bool) : M Response :=
  send (get_request url params headers stream).

Definition http_put (url : string) (data : option string) (params : Params)
    (headers : Headers) : M Response :=
  send (put_request url data params headers).

(** A completion routine is modelled by the value it returns; every call is
    recorded in [delivered]. *)
Definition call_routine (completion_routine : Status -> PyVal) (status : Status)
    : M PyVal := fun w =>
  (Done (completion_routine status),
   with_delivered (delivered w ++ [status]) w).

(** *** The local cache

    Modelled from the spec: the LocalCache collaborator
    ([rekall_agent.cache], reached through [self._cache]) is not part of the
    sources. The spec gives its interface: it maps a canonical URL to a
    generation token and a local file, and supports lookup
    ([get_generation], [get_local_file]), materialise-at-generation
    ([store_at_generation]), promote-to-new-generation taking ownership of
    the file ([update_local_file_generation]) and invalidation ([expire]). *)

Definition get_generation (url : string) : M (option Gen) := fun w =>
  (Done (cache w !! url), w).

Definition get_local_file (url : string) (generation : option Gen)
    : M string := fun w =>
  (Done (cache_file url generation), w).

Definition store_at_generation (url : string) (generation : Gen)
    (data : string) : M string := fun w =>
  let path := cache_file url (Some generation) in
  (Done path,
   with_cache (<[url := generation]> (cache w))
     (with_files (<[path := data]> (files w)) w)).

Definition update_local_file_generation (url : string) (generation : Gen)
    (local_filename : string) : M unit := fun w =>
  match files w !! local_filename with
  | Some data =>
      (Done tt,
       with_cache (<[url := generation]> (cache w))
         (with_files
            (<[cache_file url (Some generation) := data]>
               (delete local_filename (files w))) w))
  | None => (Raised (OSError local_filename), w)
  end.

Definition expire (url : string) : M unit := fun w =>
  (Done tt, with_cache (delete url (cache w)) w).

(** *** Locations, paths and headers *)

Fixpoint lstrip_slash (s : string) : string :=
  match s with
  | String "/"%char s' => lstrip_slash s'
  | _ => s
  end.

Fixpoint rstrip_slash (s : string) : string :=
  match s with
  | EmptyString => EmptyString
  | String a s' =>
      match a, rstrip_slash s' with
      | "/"%char, EmptyString => EmptyString
      | _, r => String a r
      end
  end.

Definition _join_url (base : string) (components : list string) : string :=
  rstrip_slash base +:+ "/" +:+ lstrip_slash (join_path components).

Definition expand_path (self : HTTPLocation) (kwargs : Kwargs) : string :=
  str_format (path_template self)
    (<["nonce" := nonce]> (<["client_id" := client_id]> kwargs)).

Definition to_path (self : HTTPLocation) (kwargs : Kwargs) : string :=
  join_path [path_prefix self; expand_path self kwargs].

Definition _get_parameters (self : HTTPLocation) (if_modified_since : option Z)
    (kwargs : Kwargs) : string * Params * Headers * string :=
  let subpath := expand_path self kwargs in
  let path := join_path [path_prefix self; subpath] in
  let base_url := _join_url (base self) [path] in
  let headers : Headers :=
    <["x-rekall-signature" := b64encode (signature self)]>
      (<["x-rekall-policy" := b64encode (policy self)]>
         (<["Cache-Control" := "private"]> ∅)) in
  let headers :=
    match if_modified_since with
    | Some t =>
        if truthy_opt_Z (Some t)
        then <["If-Modified-Since" := format_date_time t]> headers
        else headers
    | None => headers
    end in
  (base_url, ∅, headers, path).

(** *** Remote operation wrappers *)

Definition read_file (self : HTTPLocation) (if_modified_since : option Z)
    (kw : Kwargs) : M string :=
  let '(url_endpoint, _, headers, _) := _get_parameters self if_modified_since kw in
  resp ← http_get url_endpoint ∅ headers false;
  if ok resp then mret (content resp) else mret "".

(** [if response:] asks the response object for its truth value, which
    requests defines as [self.ok] ([Response.__bool__] and [__nonzero__]
    both return it); a missing response is false. *)
Definition truthy_response (response : option Response) : bool :=
  match response with
  | Some r => ok r
  | None => false
  end.

Definition _report_error (completion_routine : option (Status -> PyVal))
    (response : option Response) (message : option string) : M PyVal :=
  let status :=
    match response with
    | Some r =>
        if truthy_response response then
          (* Only include the text in case of error. *)
          if negb (ok r)
          then {| code := status_code r; message := Some (text r) |}
          else {| code := status_code r; message := None |}
        else {| code := 500; message := message |}
    | None => {| code := 500; message := message |}
    end in
  match response with
  | Some r =>
      if negb (ok r) then
        match completion_routine with
        | Some routine => call_routine routine status
        | None => raise (IOError (text r))
        end
      else
        _ ← match completion_routine with
            | Some routine => call_routine routine status
            | None => mret PNone
            end;
        mret (PBool (ok r))
  | None =>
      match completion_routine with
      | Some routine => call_routine routine status
      | None => raise AttributeError   (* [None.text] *)
      end
  end.

(** [fd] is the content behind the file object, [None] for Python's [None]
    (on which [fd.tell()] raises after the request has been sent). *)
Definition upload_file_object (self : HTTPLocation) (fd : option string)
    (completion_routine : option (Status -> PyVal))
    (if_modified_since : option Z) (kwargs : Kwargs) : M PyVal :=
  let '(url_endpoint, params, headers, base_url) :=
    _get_parameters self if_modified_since kwargs in
  resp ← http_put url_endpoint fd params headers;
  _ ← match fd with
      | Some _ => mret tt
      | None => raise AttributeError
      end;
  _report_error completion_routine (Some resp) None.

Definition write_file (self : HTTPLocation) (data : string)
    (completion_routine : option (Status -> PyVal))
    (if_modified_since : option Z) (kwargs : Kwargs) : M PyVal :=
  upload_file_object self (Some data) completion_routine if_modified_since kwargs.

(** [location.LocationStat.from_primitive(stat, session=...)]. *)
Record LocationStat := from_primitive { primitive : string }.

(** [list_files] is a generator; the model is the list of what it yields
    when it is consumed. *)
Definition list_files (self : HTTPLocation) (if_modified_since : option Z)
    (kw : Kwargs) : M (list LocationStat) :=
  let '(url_endpoint, params, headers, _) := _get_parameters self if_modified_since kw in
  let params := <["action" := "list"]> params in
  resp ← http_get url_endpoint params headers false;
  if ok resp then
    match json_loads (text resp) with
    | Some stats => mret (from_primitive <$> stats)
    | None => raise ValueError
    end
  else mret [].

(** [HTTPLocation.delete]; the plain name is the map operation's. *)
Definition delete_ (self : HTTPLocation)
    (completion_routine : option (Status -> PyVal))
    (if_modified_since : option Z) (kw : Kwargs) : M PyVal :=
  let '(url_endpoint, params, headers, _) := _get_parameters self if_modified_since kw in
  let params := <["action" := "delete"]> params in
  resp ← http_get url_endpoint params headers false;
  _report_error completion_routine (Some resp) None.

(** *** Conditional download into the cache *)

Definition etag_generation (resp : Response) : M Gen :=
  match etag resp with
  | ETagMissing => raise (KeyError "ETag")
  | ETagMalformed => raise ValueError
  | ETagToken g => mret g
  end.

Definition get_local_filename (self : HTTPLocation)
    (completion_routine : option (Status -> PyVal))
    (if_modified_since : option Z) (kwargs : Kwargs) : M PyVal :=
  (* We need to download the file locally. *)
  let '(url_endpoint, params, headers, base_url) :=
    _get_parameters self if_modified_since kwargs in
  current_generation ← get_generation base_url;
  let headers :=
    match current_generation with
    | Some g =>
        if truthy_opt_str current_generation
        then <["If-None-Match" := g]> headers
        else headers
    | None => headers
    end in
  resp ← http_get url_endpoint params headers true;
  (* Object not modified just return the cached object. *)
  if status_code resp =? 304 then
    path ← get_local_file base_url current_generation;
    mret (PStr path)
  else if negb (ok resp) then
    (* The file was removed from the server, make sure to expire the
       local copy too. *)
    _ ← (if status_code resp =? 404 then expire base_url else mret tt);
    _report_error completion_routine (Some resp) None
  else
    (* Store the generation of this object in the cache. *)
    current_generation ← etag_generation resp;
    filename ← store_at_generation base_url current_generation (content resp);
    (* Report success. *)
    _ ← _report_error completion_routine (Some resp) None;
    mret (PStr filename).

(** *** Optimistic read-modify-write *)

(** How one pass through the body of the [for] loop ends when it does not
    raise: it falls out of the [try] statement, executes [continue], or
    executes [return]. *)
Inductive Flow :=
| Fallthrough
| Continue
| Return (v : PyVal).

Definition call_modification (modification_cb : ModificationCb)
    (local_filename : string) : M unit := fun w =>
  match modification_cb local_filename (files w) with
  | (None, fs) => (Done tt, with_files fs w)
  | (Some e, fs) => (Raised e, with_files fs w)
  end.

Definition sleep (tenths : nat) : M unit := fun w =>
  (Done tt, with_slept (slept w ++ [tenths]) w).

(** [get_local_filename] returns a Python value; the loop uses it as a file
    name. Without a completion routine the value is always a string. *)
Definition as_filename (v : PyVal) : M string :=
  match v with
  | PStr p => mret p
  | _ => raise TypeError
  end.

(** The inner [try ... except IOError]: the local file name, the generation
    in the cache and [local_file_should_be_removed]. *)
Definition rmw_materialize (self : HTTPLocation) (base_url : string)
    : M (string * option Gen * bool) := fun w =>
  match (v ← get_local_filename self None None ∅;
         local_filename ← as_filename v;
         (* The current generation in the cache. *)
         current_generation ← get_generation base_url;
         mret (local_filename, current_generation, false)) w with
  | (Raised (IOError _), w') =>
      (* File does not exist on the server, make a tmpfile. *)
      let local_filename := mkstemp (files w') in
      (* Dont forget to remove the tempfile. *)
      (Done (local_filename, None, true),
       with_files (<[local_filename := ""]> (files w')) w')
  | r => r
  end.

(** The rest of the outer [try] block. The result carries the value of
    [local_file_should_be_removed] and the [headers] dictionary as the block
    leaves them; when the block raises, neither has been reassigned (the flag
    is only cleared right before [return True]). *)
Definition rmw_modify_upload (modification_cb : ModificationCb)
    (url_endpoint base_url : string) (retry : nat)
    (local_filename : string) (current_generation : option Gen)
    (local_file_should_be_removed : bool) (headers : Headers)
    : M (Flow * bool * Headers) :=
  (* Now let the callback modify the file. *)
  _ ← call_modification modification_cb local_filename;
  (* We may only write if this is the current generation. *)
  let headers :=
    match current_generation with
    | Some g =>
        if truthy_opt_str current_generation
        then <["If-Match" := g]> headers
        else headers
    | None => headers
    end in
  data ← open_rb local_filename;
  resp ← http_put url_endpoint (Some data) ∅ headers;
  (* OK - all went well. *)
  if ok resp then
    new_generation ← etag_generation resp;
    (* Update the cache into a new generation. *)
    _ ← update_local_file_generation base_url new_generation local_filename;
    (* Do not remove the local file because it was moved by the cache. *)
    mret (Return (PBool true), false, headers)
  else if status_code resp =? 304 then
    (* The generation on the server has changed. Abort, wait a bit and
       retry. *)
    _ ← sleep retry;
    mret (Continue, local_file_should_be_removed, headers)
  else mret (Fallthrough, local_file_should_be_removed, headers).

(** The [finally] clause: it runs however the [try] block ended, and an
    exception it raises replaces that ending. *)
Definition rmw_finally {A : Type} (local_file_should_be_removed : bool)
    (local_filename : string) (ending : Outcome A) : M A := fun w =>
  if local_file_should_be_removed then
    match unlink local_filename w with
    | (Done _, w') => (ending, w')
    | (Raised e, w') => (Raised e, w')
    end
  else (ending, w).

(** One pass through the [try ... finally] statement of the loop body, with
    the [headers] dictionary as it leaves it. *)
Definition rmw_attempt (self : HTTPLocation) (modification_cb : ModificationCb)
    (url_endpoint base_url : string) (retry : nat) (headers : Headers)
    : M (Flow * Headers) := fun w =>
  match rmw_materialize self base_url w with
  | (Raised e, w1) => (Raised e, w1)
  | (Done (local_filename, current_generation, flag), w1) =>
      match rmw_modify_upload modification_cb url_endpoint base_url retry
              local_filename current_generation flag headers w1 with
      | (Done (flow, flag', headers'), w2) =>
          rmw_finally flag' local_filename (Done (flow, headers')) w2
      | (Raised e, w2) =>
          rmw_finally flag local_filename (Raised e) w2
      end
  end.

(** [for retry in range(5): ...]. The [raise IOError("Unable to update ...")]
    statement is the last statement of the loop body, after the [try]
    statement; nothing follows the loop. *)
Fixpoint rmw_loop (self : HTTPLocation) (modification_cb : ModificationCb)
    (url_endpoint base_url : string) (retries : list nat) (headers : Headers)
    : M PyVal := fun w =>
  match retries with
  | [] => (Done PNone, w)
  | retry :: rest =>
      match rmw_attempt self modification_cb url_endpoint base_url retry
              headers w with
      | (Done (Return v, _), w') => (Done v, w')
      | (Done (Continue, headers'), w') =>
          rmw_loop self modification_cb url_endpoint base_url rest headers' w'
      | (Done (Fallthrough, _), w') =>
          (Raised (IOError ("Unable to update " +:+ str_of_location self)), w')
      | (Raised e, w') => (Raised e, w')
      end
  end.

Definition read_modify_write_local_file (self : HTTPLocation)
    (modification_cb : ModificationCb) : M PyVal :=
  let '(url_endpoint, _, headers, base_url) := _get_parameters self None ∅ in
  rmw_loop self modification_cb url_endpoint base_url (seq 0 5) headers.

(** The [cb] closure of [read_modify_write]: read the file, transform the
    bytes, write them back. *)
Definition read_modify_write_cb (modification_cb : string -> Outcome string)
    : ModificationCb := fun filename fs =>
  match fs !! filename with
  | None => (Some (IOError filename), fs)
  | Some data =>
      match modification_cb data with
      | Done new_data => (None, <[filename := new_data]> fs)
      | Raised e => (Some e, fs)
      end
  end.

Definition read_modify_write (self : HTTPLocation)
    (modification_cb : string -> Outcome string) : M PyVal :=
  _ ← read_modify_write_local_file self (read_modify_write_cb modification_cb);
  mret PNone.

(** *** Uploading a local file *)

Definition upload_local_file (self : HTTPLocation)
    (local_filename : option string) (fd : option string)
    (completion_routine : option (Status -> PyVal)) (delete : bool)
    (if_modified_since : option Z) (kwargs : Kwargs) : M PyVal :=
  fd ← match local_filename with
       | Some name =>
           if truthy_str name
           then data ← open_rb name; mret (Some data)
           else mret fd
       | None => mret fd
       end;
  result ← upload_file_object self fd completion_routine if_modified_since kwargs;
  _ ← match local_filename with
      | Some name =>
          if delete && truthy_str name then unlink name else mret tt
      | None => mret tt
      end;
  mret result.

(** *** Issuing a policy *)

Definition startswith_slash (s : string) : bool :=
  match s with
  | String "/"%char _ => true
  | _ => false
  end.

(** [HTTPLocation.New]. [now] is the reading of [time.time()], in seconds;
    [path_prefix=None] is the default of the argument, on which
    [path_prefix.startswith] raises. *)
Definition New (path_prefix : option string) (methods : option (list string))
    (now : Z) (expiration : option Z) (path_template : string)
    (public : bool) : Outcome HTTPLocation :=
  let expiration :=
    match expiration with
    | None => now + 60 * 60 * 24 * 7
    | Some e => e
    end in
  (* By default we give read/write access. *)
  let methods :=
    match methods with
    | None => ["GET"; "PUT"]
    | Some ms => ms
    end in
  match path_prefix with
  | None => Raised AttributeError
  | Some path_prefix =>
      (* Make sure paths are always anchored. *)
      let path_prefix :=
        if negb (startswith_slash path_prefix)
        then "/" +:+ path_prefix
        else path_prefix in
      let policy :=
        {| policy_path_prefix := path_prefix;
           policy_path_template := path_template;
           expires := expiration;
           public := public;
           methods := methods |} in
      let policy_data := to_json policy in
      let signature := sign policy_data in
      Done {| base := server_base_url;
              path_prefix := path_prefix;
              policy := policy_data;
              path_template := path_template;
              signature := signature |}
  end.

End Handler.

(** ** Scripted collaborators for the examples *)

Definition answer (status : Z) (is_ok : bool) (body : string) (tag : ETag)
    : Response :=
  {| status_code := status; ok := is_ok; content := body; text := body;
     etag := tag |}.

Definition demo_env (server : list Exchange -> Request -> Response) : Env :=
  {| transport := server;
     mkstemp := fun _ => "/tmp/tmpAbCdEf";
     cache_file := fun url g => "/cache" +:+ url +:+ "@" +:+ default "" g;
     b64encode := fun s => s;
     join_path := fun parts => String.concat "/" parts;
     str_format := fun template _ => template;
     format_date_time := fun _ => "Thu, 01 Jan 1970 00:00:00 GMT";
     json_loads := fun _ => Some [];
     client_id := "C.1";
     nonce := "nonce";
     server_base_url := "http://server";
     sign := fun data => "signed:" +:+ data;
     to_json := fun p => policy_path_prefix p;
     str_of_location := fun l => path_prefix l |}.

Definition demo_location : HTTPLocation :=
  {| base := "http://server/"; path_prefix := "/clients/C.1";
     path_template := "manifest"; policy := "policy"; signature := "sig" |}.

Definition empty_world : World :=
  {| cache := ∅; files := ∅; wire := []; slept := []; delivered := [] |}.

(** The object is absent and every PUT is answered 304. [marked_ok] is the
    [ok] attribute of the 304 answers: false when the transport counts a 304
    as a failure, true when it marks it the way the requests library does
    ([ok] for every status below 400). *)
Definition conflict_server (marked_ok : bool) : list Exchange -> Request -> Response :=
  fun _ req =>
    match verb req with
    | GET => answer 404 false "not found" ETagMissing
    | PUT => answer 304 marked_ok "" ETagMissing
    end.

Definition append_x : ModificationCb := fun name fs =>
  (None, <[name := default "" (fs !! name) +:+ "x"]> fs).

(** A server that always fails with the given status and body. *)
Definition failing_server (status : Z) (body : string)
    : list Exchange -> Request -> Response :=
  fun _ _ => answer status false body ETagMissing.

Definition const_routine (v : PyVal) : Status -> PyVal := fun _ => v.

(** A server holding one version of the object: a GET that carries a
    validator is answered 304, any other request is answered 200 with the
    generation [tag]. *)
Definition versioned_server (tag : Gen) (body : string)
    : list Exchange -> Request -> Response :=
  fun _ req =>
    match req_headers req !! "If-None-Match" with
    | Some _ => answer 304 true "" ETagMissing
    | None => answer 200 true body (ETagToken tag)
    end.

Definition demo_path : string := "/clients/C.1/manifest".
Definition demo_url : string := "http://server/clients/C.1/manifest".

Definition demo_headers : Headers :=
  <["x-rekall-signature" := "sig"]>
    (<["x-rekall-policy" := "policy"]> (<["Cache-Control" := "private"]> ∅)).

(** ** Vocabulary of the statements *)

(** The status [_report_error] builds for a response. A response that is
    not ok is false as a Python value, so it gets the code 500 and the
    [message] argument, which no caller in this class supplies. *)
Definition reported_status (resp : Response) : Status :=
  if ok resp
  then {| code := status_code resp; message := None |}
  else {| code := 500; message := None |}.

(** The headers of the GET of [get_local_filename]: the validator is added
    when the cached generation is a true Python value. *)
Definition validated (current_generation : option Gen) (headers : Headers)
    : Headers :=
  match current_generation with
  | Some g => if truthy_str g then <["If-None-Match" := g]> headers else headers
  | None => headers
  end.

(** The routine received exactly one status for the response, without a
    message when the response was ok, and the call returned. *)
Definition reported_to (routine : Status → PyVal) (resp : Response)
    (w : World) (r : Outcome PyVal * World) : Prop :=
  ∃ (status : Status) (v : PyVal),
    fst r = Done v ∧
    delivered (snd r) = (delivered w ++ [status])%list ∧
    (ok resp = true → message status = None) ∧
    (ok resp = false → v = routine status).

(** What one exchange tells the client about the generation of the object
    it names: a full, successful GET or a successful PUT that carries a
    decodable ETag confirms that generation; a GET that is refused with 404
    confirms that there is none; any other exchange confirms nothing new: a
    304 (not modified on GET, a refused precondition on PUT, however the
    transport marks it), a failure, an answer without a usable ETag. *)
Definition observed (known : option Gen) (e : Exchange) : option Gen :=
  let '(req, resp) := e in
  match verb req with
  | GET =>
      if status_code resp =? 304 then known
      else if ok resp then
        match etag resp with ETagToken g => Some g | _ => known end
      else if status_code resp =? 404 then None
      else known
  | PUT =>
      if status_code resp =? 304 then known
      else if ok resp then
        match etag resp with ETagToken g => Some g | _ => known end
      else known
  end.

(** The generation most recently confirmed by a run of exchanges, starting
    from what was known before. *)
Definition confirmed_generation (known : option Gen) (exchanges : list Exchange)
    : option Gen :=
  foldl observed known exchanges.

(** [w'] comes after [w]: the wire grew by some exchanges, the generation
    the cache records for [url] is the one those exchanges confirm, and the
    entries of other paths are as before. *)
Definition tracks (url : string) (w w' : World) : Prop :=
  ∃ new : list Exchange,
    wire w' = (wire w ++ new)%list ∧
    cache w' !! url = confirmed_generation (cache w !! url) new ∧
    ∀ other, other ≠ url → cache w' !! other = cache w !! other.

(** The number of PUT requests among some exchanges. *)
Definition uploads (exchanges : list Exchange) : nat :=
  length (List.filter
            (λ e : Exchange, match verb e.1 with PUT => true | GET => false end)
            exchanges).

(** A callback that raises without touching the file. *)
Definition raising_cb : ModificationCb := fun _ fs =>
  (Some (CallbackError "boom"), fs).

(** The last character of a string is a slash. *)
Fixpoint ends_with_slash (s : string) : bool :=
  match s with
  | EmptyString => false
  | String a EmptyString => Ascii.eqb a "/"
  | String _ s' => ends_with_slash s'
  end.

(** The headers of the PUT of an attempt: the precondition is set when the
    generation read from the cache is a true Python value. *)
Definition preconditioned (current_generation : option Gen) (headers : Headers)
    : Headers :=
  match current_generation with
  | Some g => if truthy_str g then <["If-Match" := g]> headers else headers
  | None => headers
  end.

(** The last of some exchanges is a PUT that was answered ok with the
    generation now recorded for [url], and the cache holds the body of that
    PUT at its own path for that generation. *)
Definition committed (url : string) (cache_path : string → option Gen → string)
    (exchanges : list Exchange) (w : World) : Prop :=
  ∃ (earlier : list Exchange) (req : Request) (resp : Response) (g : Gen),
    exchanges = (earlier ++ [(req, resp)])%list ∧
    verb req = PUT ∧ ok resp = true ∧ etag resp = ETagToken g ∧
    cache w !! url = Some g ∧
    files w !! cache_path url (Some g) = req_data req.

(** More scripted collaborators. *)

(** The object is in the cache and unchanged on the server (every GET is
    answered 304), but every PUT is refused with a failed 304. *)
Definition contended_server : list Exchange -> Request -> Response :=
  fun _ req =>
    match verb req with
    | GET => answer 304 true "" ETagMissing
    | PUT => answer 304 false "" ETagMissing
    end.

(** An ok answer that carries no ETag header. *)
Definition bare_server : list Exchange -> Request -> Response :=
  fun _ _ => answer 200 true "v1" ETagMissing.

(** A listing of two entries, with a decoder that knows this one body. *)
Definition listing_server : list Exchange -> Request -> Response :=
  fun _ _ => answer 200 true "[a, b]" ETagMissing.

Definition listing_env : Env :=
  {| transport := listing_server;
     mkstemp := mkstemp (Env := demo_env listing_server);
     cache_file := cache_file (Env := demo_env listing_server);
     b64encode := b64encode (Env := demo_env listing_server);
     join_path := join_path (Env := demo_env listing_server);
     str_format := str_format (Env := demo_env listing_server);
     format_date_time := format_date_time (Env := demo_env listing_server);
     json_loads := fun body =>
       if String.eqb body "[a, b]" then Some ["a"; "b"] else None;
     client_id := "C.1";
     nonce := "nonce";
     server_base_url := "http://server";
     sign := sign (Env := demo_env listing_server);
     to_json := to_json (Env := demo_env listing_server);
     str_of_location := str_of_location (Env := demo_env listing_server) |}.

(** A world in which the demo object is cached at generation g1. *)
Definition cached_world : World :=
  with_files {[ "/cache/clients/C.1/manifest@g1" := "v1" ]}
    (with_cache {[ demo_path := "g1" ]} empty_world).

Definition append_new : string -> Outcome string := fun data =>
  Done (data +:+ "new").

Definition refuse : string -> Outcome string := fun _ =>
  Raised (CallbackError "boom").

(** The transport marks every PUT that is answered 304 as failed. (The
    requests library does the opposite: for it every status below 400 is
    ok.) *)
Definition conflicts_marked_failed {env : Env} : Prop :=
  ∀ hist req,
    verb req = PUT → status_code (transport hist req) = 304 →
    ok (transport hist req) = false.

(** A run of slashes. *)
Fixpoint slashes (n : nat) : string :=
  match n with
  | O => EmptyString
  | S n' => String "/" (slashes n')
  end.

(** An answer marked the way the requests library marks it: ok unless the
    status is a 4xx or a 5xx. *)
Definition requests_answer (status : Z) (body : string) (tag : ETag)
    : Response :=
  answer status (negb ((400 <=? status) && (status <? 600))) body tag.

(** The object is served at generation g1; meanwhile another writer has
    moved it to g2, so the server refuses the conditional PUT with 304 and
    names the current generation g2 in the ETag of its answer. *)
Definition overtaken_server : list Exchange -> Request -> Response :=
  fun _ req =>
    match verb req with
    | GET => requests_answer 200 "v1" (ETagToken "g1")
    | PUT => requests_answer 304 "" (ETagToken "g2")
    end.

(** * Properties *)

Section Properties.
Context {env : Env}.

Ltac run :=
  unfold mbind, M_bind, mret, M_ret, raise, http_get, http_put, send,
    call_routine, get_generation, get_local_file, store_at_generation,
    expire, etag_generation, sleep in *.

Arguments _report_error : simpl never.

(** ** Reporting *)

Lemma report_error_with_routine (routine : Status → PyVal) (resp : Response)
    (w : World) :
  _report_error (Some routine) (Some resp) None w =
    (Done (if ok resp then PBool true else routine (reported_status resp)),
     with_delivered (delivered w ++ [reported_status resp]) w).
Proof.
  unfold _report_error, reported_status, truthy_response. run.
  destruct (ok resp); reflexivity.
Qed.

Lemma report_error_without_routine (resp : Response) (w : World) :
  _report_error None (Some resp) None w =
    (if ok resp then Done (PBool true) else Raised (IOError (text resp)), w).
Proof.
  unfold _report_error, truthy_response. run.
  destruct (ok resp); reflexivity.
Qed.

(** ** Conditional download *)

(** [get_local_filename] sends exactly one request; what follows depends on
    the answer alone. *)
Lemma get_local_filename_cases (self : HTTPLocation)
    (routine : option (Status → PyVal)) (if_modified_since : option Z)
    (kw : Kwargs) (w : World) :
  let '(url_endpoint, params, headers, base_url) :=
    _get_parameters self if_modified_since kw in
  let current := cache w !! base_url in
  let req := get_request url_endpoint params (validated current headers) true in
  let resp := transport (wire w) req in
  let w1 := with_wire (wire w ++ [(req, resp)]) w in
  get_local_filename self routine if_modified_since kw w =
    if status_code resp =? 304 then
      (Done (PStr (cache_file base_url current)), w1)
    else if negb (ok resp) then
      (_ ← (if status_code resp =? 404 then expire base_url else mret ());
       _report_error routine (Some resp) None) w1
    else
      match etag resp with
      | ETagToken g =>
          (_ ← _report_error routine (Some resp) None;
           mret (PStr (cache_file base_url (Some g))))
            (with_cache (<[base_url := g]> (cache w1))
               (with_files (<[cache_file base_url (Some g) := content resp]>
                              (files w1)) w1))
      | ETagMissing => (Raised (KeyError "ETag"), w1)
      | ETagMalformed => (Raised ValueError, w1)
      end.
Proof.
  unfold get_local_filename, validated.
  destruct (_get_parameters self if_modified_since kw)
    as [[[url_endpoint params] headers] base_url].
  run. simpl.
  destruct (cache w !! base_url) as [g|]; simpl.
  - destruct (status_code _ =? 304); [reflexivity |].
    destruct (ok _); simpl; [| reflexivity].
    destruct (etag _); reflexivity.
  - destruct (status_code _ =? 304); [reflexivity |].
    destruct (ok _); simpl; [| reflexivity].
    destruct (etag _); reflexivity.
Qed.

Lemma get_local_filename_wire (self : HTTPLocation)
    (routine : option (Status → PyVal)) (if_modified_since : option Z)
    (kw : Kwargs) (w : World) :
  let '(url_endpoint, params, headers, base_url) :=
    _get_parameters self if_modified_since kw in
  let req := get_request url_endpoint params
               (validated (cache w !! base_url) headers) true in
  wire (snd (get_local_filename self routine if_modified_since kw w)) =
    (wire w ++ [(req, transport (wire w) req)])%list.
Proof.
  pose proof (get_local_filename_cases self routine if_modified_since kw w) as H.
  destruct (_get_parameters self if_modified_since kw)
    as [[[url_endpoint params] headers] base_url].
  cbv zeta in H. rewrite H. clear H.
  destruct (status_code _ =? 304); [reflexivity |].
  destruct (ok _) eqn:Hok; simpl.
  - destruct (etag _); try reflexivity.
    destruct routine as [f|].
    + unfold mbind, M_bind. rewrite report_error_with_routine. reflexivity.
    + unfold mbind, M_bind. rewrite report_error_without_routine, Hok. reflexivity.
  - unfold mbind, M_bind.
    destruct (status_code _ =? 404); unfold expire, mret, M_ret;
      (destruct routine as [f|];
       [ rewrite report_error_with_routine
       | rewrite report_error_without_routine, Hok ]); reflexivity.
Qed.

(** Without a completion routine [get_local_filename] returns a file name
    or raises, so [as_filename] never raises in the retry loop. *)
Lemma get_local_filename_returns_name (self : HTTPLocation)
    (if_modified_since : option Z) (kw : Kwargs) (w : World) (v : PyVal) :
  fst (get_local_filename self None if_modified_since kw w) = Done v →
  ∃ name, v = PStr name.
Proof.
  pose proof (get_local_filename_cases self None if_modified_since kw w) as H.
  destruct (_get_parameters self if_modified_since kw)
    as [[[url_endpoint params] headers] base_url].
  cbv zeta in H. rewrite H. clear H.
  destruct (status_code _ =? 304); simpl.
  { intros [= <-]. eauto. }
  destruct (ok _) eqn:Hok; simpl.
  - destruct (etag _); simpl; try discriminate.
    unfold mbind, M_bind. rewrite report_error_without_routine, Hok.
    simpl. intros [= <-]. eauto.
  - unfold mbind, M_bind.
    destruct (status_code _ =? 404); unfold expire, mret, M_ret;
      rewrite report_error_without_routine, Hok; discriminate.
Qed.

(** C5. When the answer to the GET of [get_local_filename] is a 404 that the
    transport marks as failed, the call is exactly: expire the cache entry of
    the canonical path, then report the response. The entry is gone
    afterwards; without a completion routine the call raises the IOError
    carrying the response text, with one it hands the routine a failure
    status and returns what the routine returned. No cached path is
    returned. *)
Theorem not_found_expires_then_reports (self : HTTPLocation)
    (routine : option (Status → PyVal)) (if_modified_since : option Z)
    (kw : Kwargs) (w : World) (req : Request) (resp : Response) :
  let '(_, _, _, base_url) := _get_parameters self if_modified_since kw in
  let r := get_local_filename self routine if_modified_since kw w in
  wire (snd r) = (wire w ++ [(req, resp)])%list →
  status_code resp = 404 →
  ok resp = false →
  r = (_ ← expire base_url; _report_error routine (Some resp) None)
        (with_wire (wire w ++ [(req, resp)]) w) ∧
  cache (snd r) !! base_url = None ∧
  files (snd r) = files w ∧
  match routine with
  | None =>
      fst r = Raised (IOError (text resp)) ∧ delivered (snd r) = delivered w
  | Some f =>
      ∃ status, 400 ≤ code status ∧ fst r = Done (f status) ∧
                delivered (snd r) = (delivered w ++ [status])%list
  end.
Proof.
  pose proof (get_local_filename_cases self routine if_modified_since kw w) as H.
  pose proof (get_local_filename_wire self routine if_modified_since kw w) as Hw.
  destruct (_get_parameters self if_modified_since kw)
    as [[[url_endpoint params] headers] base_url].
  cbv zeta in H, Hw |- *. intros Hwire H404 Hok.
  rewrite Hw in Hwire. apply app_inj_tail in Hwire as [_ Heq].
  injection Heq as <- Hresp. rewrite Hresp in H. rewrite H. clear H Hw.
  rewrite H404, Hok. simpl.
  split; [reflexivity |].
  unfold mbind, M_bind, expire.
  destruct routine as [f|].
  - rewrite report_error_with_routine. simpl.
    repeat split; [apply lookup_delete_eq |].
    exists (reported_status resp). unfold reported_status. rewrite Hok.
    simpl. repeat split; auto. lia.
  - rewrite report_error_without_routine, Hok. simpl.
    repeat split; auto. apply lookup_delete_eq.
Qed.

(** C4, as amended. When the cache holds a non-empty generation for the
    canonical path, the one request [get_local_filename] sends is the GET
    carrying [If-None-Match] with that generation; when the answer is 304 the
    call returns the path where the cache keeps that generation and changes
    neither the cache nor the local files, and calls no routine. *)
Theorem not_modified_returns_cached_path (self : HTTPLocation)
    (routine : option (Status → PyVal)) (if_modified_since : option Z)
    (kw : Kwargs) (w : World) (g : Gen) (req : Request) (resp : Response) :
  let '(url_endpoint, params, headers, base_url) :=
    _get_parameters self if_modified_since kw in
  let r := get_local_filename self routine if_modified_since kw w in
  cache w !! base_url = Some g →
  g ≠ "" →
  wire (snd r) = (wire w ++ [(req, resp)])%list →
  req = get_request url_endpoint params (<["If-None-Match" := g]> headers) true ∧
  (status_code resp = 304 →
   fst r = Done (PStr (cache_file base_url (Some g))) ∧
   cache (snd r) = cache w ∧
   files (snd r) = files w ∧
   delivered (snd r) = delivered w).
Proof.
  pose proof (get_local_filename_cases self routine if_modified_since kw w) as H.
  pose proof (get_local_filename_wire self routine if_modified_since kw w) as Hw.
  destruct (_get_parameters self if_modified_since kw)
    as [[[url_endpoint params] headers] base_url].
  cbv zeta in H, Hw |- *. intros Hgen Hne Hwire.
  rewrite Hw in Hwire. apply app_inj_tail in Hwire as [_ Heq].
  injection Heq as Hreq Hresp.
  rewrite Hgen in Hreq, Hresp, H. unfold validated in Hreq, Hresp, H.
  assert (truthy_str g = true) as Ht by (destruct g; [congruence | reflexivity]).
  rewrite Ht in Hreq, Hresp, H.
  split; [symmetry; exact Hreq |].
  intros H304. rewrite Hresp in H. rewrite H, H304. simpl. auto.
Qed.

(** ** The completion-routine channel *)

Lemma report_error_reported_to (routine : Status → PyVal) (resp : Response)
    (w0 w : World) :
  delivered w = delivered w0 →
  reported_to routine resp w0 (_report_error (Some routine) (Some resp) None w).
Proof.
  intros Hd. rewrite report_error_with_routine.
  exists (reported_status resp). eexists. simpl. rewrite Hd.
  repeat split.
  - unfold reported_status. intros ->. reflexivity.
  - intros ->. reflexivity.
Qed.

Lemma upload_file_object_cases (self : HTTPLocation) (data : string)
    (routine : option (Status → PyVal)) (if_modified_since : option Z)
    (kw : Kwargs) (w : World) :
  let '(url_endpoint, params, headers, _) :=
    _get_parameters self if_modified_since kw in
  let req := put_request url_endpoint (Some data) params headers in
  let resp := transport (wire w) req in
  upload_file_object self (Some data) routine if_modified_since kw w =
    _report_error routine (Some resp) None
      (with_wire (wire w ++ [(req, resp)]) w).
Proof.
  unfold upload_file_object.
  destruct (_get_parameters self if_modified_since kw)
    as [[[url_endpoint params] headers] base_url].
  reflexivity.
Qed.

Lemma delete_cases (self : HTTPLocation)
    (routine : option (Status → PyVal)) (if_modified_since : option Z)
    (kw : Kwargs) (w : World) :
  let '(url_endpoint, params, headers, _) :=
    _get_parameters self if_modified_since kw in
  let req := get_request url_endpoint (<["action" := "delete"]> params)
               headers false in
  let resp := transport (wire w) req in
  delete_ self routine if_modified_since kw w =
    _report_error routine (Some resp) None
      (with_wire (wire w ++ [(req, resp)]) w).
Proof.
  unfold delete_.
  destruct (_get_parameters self if_modified_since kw)
    as [[[url_endpoint params] headers] base_url].
  reflexivity.
Qed.

Lemma report_error_wire (routine : option (Status → PyVal)) (resp : Response)
    (w : World) :
  wire (snd (_report_error routine (Some resp) None w)) = wire w.
Proof.
  destruct routine as [f|].
  - rewrite report_error_with_routine. reflexivity.
  - rewrite report_error_without_routine. reflexivity.
Qed.

(** C6, as amended. With a completion routine supplied, [upload_file_object]
    and [delete] hand the routine one status for the response (without
    message text when the response is ok) and return; so does
    [get_local_filename] whenever the answer is not 304 and, when ok,
    carries a decodable ETag. On a 304 answer [get_local_filename] returns
    the cached path and calls no routine. Without a routine a failed
    response makes each of the three raise the IOError carrying the response
    text. *)
Theorem completion_routine_channel (self : HTTPLocation)
    (if_modified_since : option Z) (kw : Kwargs) (w : World)
    (req : Request) (resp : Response) :
  (∀ (data : string) (routine : Status → PyVal),
     let r := upload_file_object self (Some data) (Some routine)
                if_modified_since kw w in
     wire (snd r) = (wire w ++ [(req, resp)])%list →
     reported_to routine resp w r) ∧
  (∀ routine : Status → PyVal,
     let r := delete_ self (Some routine) if_modified_since kw w in
     wire (snd r) = (wire w ++ [(req, resp)])%list →
     reported_to routine resp w r) ∧
  (∀ routine : Status → PyVal,
     let r := get_local_filename self (Some routine) if_modified_since kw w in
     wire (snd r) = (wire w ++ [(req, resp)])%list →
     (status_code resp ≠ 304 →
      (ok resp = true → ∃ g, etag resp = ETagToken g) →
      reported_to routine resp w r) ∧
     (status_code resp = 304 →
      ∃ path, fst r = Done (PStr path) ∧ delivered (snd r) = delivered w)) ∧
  (ok resp = false →
   (∀ data : string,
      let r := upload_file_object self (Some data) None if_modified_since kw w in
      wire (snd r) = (wire w ++ [(req, resp)])%list →
      fst r = Raised (IOError (text resp))) ∧
   (let r := delete_ self None if_modified_since kw w in
    wire (snd r) = (wire w ++ [(req, resp)])%list →
    fst r = Raised (IOError (text resp))) ∧
   (let r := get_local_filename self None if_modified_since kw w in
    wire (snd r) = (wire w ++ [(req, resp)])%list →
    status_code resp ≠ 304 →
    fst r = Raised (IOError (text resp)))).
Proof.
  assert (∀ routine data,
            let r := upload_file_object self (Some data) routine
                       if_modified_since kw w in
            wire (snd r) = (wire w ++ [(req, resp)])%list →
            r = _report_error routine (Some resp) None
                  (with_wire (wire w ++ [(req, resp)]) w)) as Hup.
  { intros routine data r Hwire. subst r.
    pose proof (upload_file_object_cases self data routine
                  if_modified_since kw w) as H.
    destruct (_get_parameters self if_modified_since kw)
      as [[[url_endpoint params] headers] base_url].
    cbv zeta in H. rewrite H in Hwire |- *.
    rewrite report_error_wire in Hwire. simpl in Hwire.
    apply app_inj_tail in Hwire as [_ Heq]. injection Heq as Hreq Hresp.
    rewrite Hresp, Hreq. reflexivity. }
  assert (∀ routine,
            let r := delete_ self routine if_modified_since kw w in
            wire (snd r) = (wire w ++ [(req, resp)])%list →
            r = _report_error routine (Some resp) None
                  (with_wire (wire w ++ [(req, resp)]) w)) as Hdel.
  { intros routine r Hwire. subst r.
    pose proof (delete_cases self routine if_modified_since kw w) as H.
    destruct (_get_parameters self if_modified_since kw)
      as [[[url_endpoint params] headers] base_url].
    cbv zeta in H. rewrite H in Hwire |- *.
    rewrite report_error_wire in Hwire. simpl in Hwire.
    apply app_inj_tail in Hwire as [_ Heq]. injection Heq as Hreq Hresp.
    rewrite Hresp, Hreq. reflexivity. }
  split; [| split; [| split]].
  - intros data routine r Hwire. subst r. rewrite (Hup _ _ Hwire).
    apply report_error_reported_to. reflexivity.
  - intros routine r Hwire. subst r. rewrite (Hdel _ Hwire).
    apply report_error_reported_to. reflexivity.
  - intros routine r Hwire. subst r.
    pose proof (get_local_filename_cases self (Some routine)
                  if_modified_since kw w) as H.
    pose proof (get_local_filename_wire self (Some routine)
                  if_modified_since kw w) as Hw.
    destruct (_get_parameters self if_modified_since kw)
      as [[[url_endpoint params] headers] base_url].
    cbv zeta in H, Hw. rewrite Hw in Hwire.
    apply app_inj_tail in Hwire as [_ Heq]. injection Heq as Hreq Hresp.
    rewrite Hresp in H. rewrite H. clear H Hw. split.
    + intros Hne Hetag.
      destruct (status_code resp =? 304) eqn:E; [apply Z.eqb_eq in E; contradiction |].
      destruct (ok resp) eqn:Hok; simpl.
      * destruct (Hetag eq_refl) as [g ->].
        unfold mbind, M_bind. rewrite report_error_with_routine.
        exists (reported_status resp). eexists. simpl.
        unfold reported_status. rewrite Hok. simpl.
        repeat split; auto. discriminate.
      * unfold mbind, M_bind.
        destruct (status_code resp =? 404); unfold expire, mret, M_ret;
          apply report_error_reported_to; reflexivity.
    + intros ->. simpl. eauto.
  - intros Hok. split; [| split].
    + intros data r Hwire. subst r. rewrite (Hup _ _ Hwire).
      rewrite report_error_without_routine, Hok. reflexivity.
    + intros r Hwire. subst r. rewrite (Hdel _ Hwire).
      rewrite report_error_without_routine, Hok. reflexivity.
    + intros r Hwire Hne. subst r.
      pose proof (get_local_filename_cases self None
                    if_modified_since kw w) as H.
      pose proof (get_local_filename_wire self None
                    if_modified_since kw w) as Hw.
      destruct (_get_parameters self if_modified_since kw)
        as [[[url_endpoint params] headers] base_url].
      cbv zeta in H, Hw. rewrite Hw in Hwire.
      apply app_inj_tail in Hwire as [_ Heq]. injection Heq as Hreq Hresp.
      rewrite Hresp in H. rewrite H. clear H Hw.
      destruct (status_code resp =? 304) eqn:E; [apply Z.eqb_eq in E; contradiction |].
      rewrite Hok. simpl. unfold mbind, M_bind.
      destruct (status_code resp =? 404); unfold expire, mret, M_ret;
        rewrite report_error_without_routine, Hok; reflexivity.
Qed.

(** ** Remote operation wrappers *)

(** C8. [read_file] sends one GET and returns: the body when the response is
    ok, the empty string for every other response. It never raises, calls no
    completion routine, and leaves the cache and the local files alone. *)
Theorem read_file_swallows_errors (self : HTTPLocation)
    (if_modified_since : option Z) (kw : Kwargs) (w : World) :
  let '(url_endpoint, _, headers, _) := _get_parameters self if_modified_since kw in
  let req := get_request url_endpoint ∅ headers false in
  let resp := transport (wire w) req in
  let r := read_file self if_modified_since kw w in
  fst r = Done (if ok resp then content resp else "") ∧
  wire (snd r) = (wire w ++ [(req, resp)])%list ∧
  delivered (snd r) = delivered w ∧
  cache (snd r) = cache w ∧
  files (snd r) = files w.
Proof.
  unfold read_file.
  destruct (_get_parameters self if_modified_since kw)
    as [[[url_endpoint params] headers] path].
  run. simpl.
  destruct (ok (transport _ _)); simpl; auto.
Qed.

(** C9. When the listing request is answered with a response that is not ok,
    [list_files] yields nothing: no exception, no completion routine, only
    the exchange itself is recorded. *)
Theorem list_files_swallows_errors (self : HTTPLocation)
    (if_modified_since : option Z) (kw : Kwargs) (w : World) :
  let '(url_endpoint, params, headers, _) := _get_parameters self if_modified_since kw in
  let req := get_request url_endpoint (<["action" := "list"]> params) headers false in
  let resp := transport (wire w) req in
  ok resp = false →
  list_files self if_modified_since kw w =
    (Done [], with_wire (wire w ++ [(req, resp)]) w).
Proof.
  unfold list_files.
  destruct (_get_parameters self if_modified_since kw)
    as [[[url_endpoint params] headers] path].
  run. simpl. intros ->. reflexivity.
Qed.

(** C10. With a (non-empty) [local_filename], [delete] left at [True] and a
    completion routine supplied, [upload_local_file] unlinks the named file
    whatever the answer to the upload was. After a failed upload the routine
    has received a failure status, the call returns what the routine
    returned, and the caller's file is gone all the same. *)
Theorem upload_local_file_unlinks_after_failure (self : HTTPLocation)
    (name data : string) (fd : option string) (routine : Status → PyVal)
    (if_modified_since : option Z) (kw : Kwargs) (w : World) :
  let '(url_endpoint, params, headers, _) := _get_parameters self if_modified_since kw in
  let req := put_request url_endpoint (Some data) params headers in
  let resp := transport (wire w) req in
  let r := upload_local_file self (Some name) fd (Some routine) true
             if_modified_since kw w in
  truthy_str name = true →
  files w !! name = Some data →
  files (snd r) = delete name (files w) ∧
  wire (snd r) = (wire w ++ [(req, resp)])%list ∧
  (ok resp = false →
   ∃ status, fst r = Done (routine status) ∧
             delivered (snd r) = (delivered w ++ [status])%list ∧
             400 ≤ code status).
Proof.
  unfold upload_local_file, upload_file_object.
  destruct (_get_parameters self if_modified_since kw)
    as [[[url_endpoint params] headers] path].
  intros Hname Hfile. rewrite Hname.
  unfold _report_error, truthy_response, open_rb, unlink. run. simpl.
  rewrite Hfile. simpl.
  destruct (ok (transport _ _)) eqn:Hok; simpl; rewrite Hfile; simpl.
  - repeat split; auto. discriminate.
  - repeat split; auto. intros _.
    exists {| code := 500; message := None |}. simpl. repeat split; auto. lia.
Qed.

(** ** Issuing a policy *)

(** C7. [New] on a given path prefix returns a location; the policy it
    signs has the methods given (GET and PUT when none are given), the
    expiration given (the current time plus seven days when none is given)
    and the anchored prefix; the location carries the serialised policy, the
    signature over exactly those bytes, the configured base URL and the
    anchored prefix, which starts with a slash and is the given prefix or a
    slash followed by it. *)
Theorem New_issues_signed_policy (prefix : string)
    (given : option (list string)) (now : Z) (expiration : option Z)
    (template : string) (is_public : bool) :
  ∃ (loc : HTTPLocation) (pol : URLPolicy),
    New (Some prefix) given now expiration template is_public = Done loc ∧
    methods pol = default ["GET"; "PUT"] given ∧
    expires pol = default (now + 604800) expiration ∧
    policy_path_prefix pol = path_prefix loc ∧
    policy_path_template pol = template ∧
    public pol = is_public ∧
    policy loc = to_json pol ∧
    signature loc = sign (to_json pol) ∧
    base loc = server_base_url ∧
    path_template loc = template ∧
    startswith_slash (path_prefix loc) = true ∧
    path_prefix loc = (if startswith_slash prefix then prefix else "/" +:+ prefix).
Proof.
  unfold New.
  do 2 eexists. split; [reflexivity |].
  cbn. repeat split; try reflexivity.
  all: destruct given, expiration; try reflexivity.
  all: destruct (startswith_slash prefix) eqn:E; cbn; auto.
Qed.

(** ** The cache follows the confirmed generation *)

Lemma tracks_refl (url : string) (w : World) : tracks url w w.
Proof.
  exists []. rewrite app_nil_r. repeat split; auto.
Qed.

Lemma tracks_same (url : string) (w w' : World) :
  wire w' = wire w → cache w' = cache w → tracks url w w'.
Proof.
  intros Hw Hc. exists []. rewrite app_nil_r, Hc. repeat split; auto.
Qed.

Lemma tracks_trans (url : string) (w1 w2 w3 : World) :
  tracks url w1 w2 → tracks url w2 w3 → tracks url w1 w3.
Proof.
  intros (n1 & Hw1 & Hc1 & Ho1) (n2 & Hw2 & Hc2 & Ho2).
  exists (n1 ++ n2)%list. split; [| split].
  - rewrite Hw2, Hw1, app_assoc. reflexivity.
  - unfold confirmed_generation in *. rewrite foldl_app, <- Hc1. exact Hc2.
  - intros other Hne. rewrite Ho2, Ho1; auto.
Qed.

Lemma tracks_exchange (url : string) (w w' : World) (req : Request)
    (resp : Response) :
  wire w' = (wire w ++ [(req, resp)])%list →
  cache w' !! url = observed (cache w !! url) (req, resp) →
  (∀ other, other ≠ url → cache w' !! other = cache w !! other) →
  tracks url w w'.
Proof.
  intros Hw Hc Ho. exists [(req, resp)]. repeat split; auto.
Qed.

Lemma report_error_frame (routine : option (Status → PyVal)) (resp : Response)
    (w : World) :
  let r := _report_error routine (Some resp) None w in
  wire (snd r) = wire w ∧ cache (snd r) = cache w ∧ files (snd r) = files w.
Proof.
  destruct routine as [f|]; cbv zeta.
  - rewrite report_error_with_routine. auto.
  - rewrite report_error_without_routine. auto.
Qed.

Lemma get_local_filename_cache (self : HTTPLocation)
    (routine : option (Status → PyVal)) (if_modified_since : option Z)
    (kw : Kwargs) (w : World) :
  let '(url_endpoint, params, headers, base_url) :=
    _get_parameters self if_modified_since kw in
  let req := get_request url_endpoint params
               (validated (cache w !! base_url) headers) true in
  let resp := transport (wire w) req in
  cache (snd (get_local_filename self routine if_modified_since kw w)) =
    if status_code resp =? 304 then cache w
    else if ok resp then
      match etag resp with
      | ETagToken g => <[base_url := g]> (cache w)
      | _ => cache w
      end
    else if status_code resp =? 404 then delete base_url (cache w)
    else cache w.
Proof.
  pose proof (get_local_filename_cases self routine if_modified_since kw w) as H.
  destruct (_get_parameters self if_modified_since kw)
    as [[[url_endpoint params] headers] base_url].
  cbv zeta in H |- *. rewrite H. clear H.
  destruct (status_code _ =? 304); [reflexivity |].
  destruct (ok _) eqn:Hok; simpl.
  - destruct (etag _); try reflexivity.
    unfold mbind, M_bind.
    destruct routine as [f|];
      [ rewrite report_error_with_routine
      | rewrite report_error_without_routine, Hok ]; reflexivity.
  - unfold mbind, M_bind.
    destruct (status_code _ =? 404); unfold expire, mret, M_ret;
      (destruct routine as [f|];
       [ rewrite report_error_with_routine
       | rewrite report_error_without_routine, Hok ]); reflexivity.
Qed.

Lemma get_local_filename_tracks (self : HTTPLocation)
    (routine : option (Status → PyVal)) (if_modified_since : option Z)
    (kw : Kwargs) (w : World) :
  let '(_, _, _, base_url) := _get_parameters self if_modified_since kw in
  tracks base_url w (snd (get_local_filename self routine if_modified_since kw w)).
Proof.
  pose proof (get_local_filename_cache self routine if_modified_since kw w) as Hc.
  pose proof (get_local_filename_wire self routine if_modified_since kw w) as Hw.
  destruct (_get_parameters self if_modified_since kw)
    as [[[url_endpoint params] headers] base_url].
  cbv zeta in Hc, Hw.
  eapply tracks_exchange; [exact Hw | |]; rewrite Hc; unfold observed; simpl.
  - destruct (status_code _ =? 304); [reflexivity |].
    destruct (ok _).
    + destruct (etag _); try reflexivity. apply lookup_insert_eq.
    + destruct (status_code _ =? 404); [apply lookup_delete_eq | reflexivity].
  - intros other Hne.
    destruct (status_code _ =? 304); [reflexivity |].
    destruct (ok _).
    + destruct (etag _); try reflexivity. apply lookup_insert_ne; auto.
    + destruct (status_code _ =? 404); [apply lookup_delete_ne; auto | reflexivity].
Qed.

(** ** Optimistic read-modify-write *)

Lemma rmw_materialize_cases (self : HTTPLocation) (base_url : string)
    (w : World) :
  rmw_materialize self base_url w =
    match get_local_filename self None None ∅ w with
    | (Done (PStr p), w1) => (Done (p, cache w1 !! base_url, false), w1)
    | (Done _, w1) => (Raised TypeError, w1)
    | (Raised (IOError _), w1) =>
        (Done (mkstemp (files w1), None, true),
         with_files (<[mkstemp (files w1) := ""]> (files w1)) w1)
    | (Raised e, w1) => (Raised e, w1)
    end.
Proof.
  unfold rmw_materialize, as_filename. run.
  destruct (get_local_filename self None None ∅ w) as [[v|e] w1].
  - destruct v; reflexivity.
  - destruct e; reflexivity.
Qed.

Lemma rmw_materialize_tracks (self : HTTPLocation) (base_url : string)
    (w : World) :
  (_get_parameters self None ∅).2 = base_url →
  tracks base_url w (snd (rmw_materialize self base_url w)).
Proof.
  intros Hb. rewrite rmw_materialize_cases.
  pose proof (get_local_filename_tracks self None None ∅ w) as H.
  destruct (_get_parameters self None ∅)
    as [[[url_endpoint params] headers] path].
  simpl in Hb. subst path.
  destruct (get_local_filename self None None ∅ w) as [[v|e] w1]; simpl in H.
  - destruct v; exact H.
  - destruct e; exact H.
Qed.

(** The upload step changes the cache only by committing the generation of
    a PUT that was answered ok with a decodable ETag. *)
Lemma rmw_modify_upload_cache (modification_cb : ModificationCb)
    (url_endpoint base_url : string) (retry : nat) (local_filename : string)
    (current_generation : option Gen) (flag : bool) (headers : Headers)
    (w : World) :
  let r := rmw_modify_upload modification_cb url_endpoint base_url retry
             local_filename current_generation flag headers w in
  (wire (snd r) = wire w ∧ cache (snd r) = cache w) ∨
  ∃ (req : Request) (resp : Response),
    wire (snd r) = (wire w ++ [(req, resp)])%list ∧
    verb req = PUT ∧
    resp = transport (wire w) req ∧
    if ok resp then
      match etag resp with
      | ETagToken g =>
          cache (snd r) = <[base_url := g]> (cache w) ∧
          ∃ hdrs, fst r = Done (Return (PBool true), false, hdrs)
      | _ => cache (snd r) = cache w ∧ ∃ e, fst r = Raised e
      end
    else
      cache (snd r) = cache w ∧
      ∃ hdrs, fst r = Done (if status_code resp =? 304
                            then Continue else Fallthrough, flag, hdrs).
Proof.
  unfold rmw_modify_upload, call_modification, open_rb,
    update_local_file_generation. run.
  destruct (modification_cb local_filename (files w)) as [[e|] fs]; simpl;
    [left; auto |].
  destruct (fs !! local_filename) as [data|] eqn:Hfile; simpl;
    [| left; auto].
  right.
  match goal with
  | |- context [transport (wire w) ?r] => exists r, (transport (wire w) r)
  end.
  destruct (ok (transport _ _)); simpl.
  - destruct (etag (transport _ _)); simpl; eauto 10.
    rewrite Hfile. simpl. eauto 10.
  - destruct (status_code (transport _ _) =? 304); simpl; eauto 10.
Qed.

Lemma rmw_modify_upload_tracks (modification_cb : ModificationCb)
    (url_endpoint base_url : string) (retry : nat) (local_filename : string)
    (current_generation : option Gen) (flag : bool) (headers : Headers)
    (w : World) :
  conflicts_marked_failed →
  tracks base_url w
    (snd (rmw_modify_upload modification_cb url_endpoint base_url retry
            local_filename current_generation flag headers w)).
Proof.
  intros Hmark.
  pose proof (rmw_modify_upload_cache modification_cb url_endpoint base_url
                retry local_filename current_generation flag headers w) as H.
  cbv zeta in H.
  destruct H as [[Hw Hc] | (req & resp & Hw & Hverb & Hresp & H)].
  - apply tracks_same; assumption.
  - assert (status_code resp = 304 → ok resp = false) as H304
      by (rewrite Hresp; apply Hmark; exact Hverb).
    apply tracks_exchange with (req := req) (resp := resp); [exact Hw | |].
    + unfold observed. rewrite Hverb.
      destruct (Z.eqb_spec (status_code resp) 304) as [E | E].
      * rewrite (H304 E) in H. destruct H as [-> _]. reflexivity.
      * destruct (ok resp).
        -- destruct (etag resp); destruct H as [-> _]; auto.
           apply lookup_insert_eq.
        -- destruct H as [-> _]. reflexivity.
    + intros other Hne. destruct (ok resp).
      * destruct (etag resp); destruct H as [-> _]; auto.
        apply lookup_insert_ne; auto.
      * destruct H as [-> _]. auto.
Qed.

Lemma rmw_finally_frame {A : Type} (flag : bool) (local_filename : string)
    (ending : Outcome A) (w : World) :
  let r := rmw_finally flag local_filename ending w in
  wire (snd r) = wire w ∧ cache (snd r) = cache w ∧ slept (snd r) = slept w.
Proof.
  unfold rmw_finally, unlink. destruct flag; simpl; auto.
  destruct (files w !! local_filename); simpl; auto.
Qed.

Lemma rmw_attempt_tracks (self : HTTPLocation) (modification_cb : ModificationCb)
    (url_endpoint base_url : string) (retry : nat) (headers : Headers)
    (w : World) :
  conflicts_marked_failed →
  (_get_parameters self None ∅).2 = base_url →
  tracks base_url w
    (snd (rmw_attempt self modification_cb url_endpoint base_url retry
            headers w)).
Proof.
  intros Hmark Hb. unfold rmw_attempt.
  pose proof (rmw_materialize_tracks self base_url w Hb) as H1.
  destruct (rmw_materialize self base_url w)
    as [[[[local_filename current_generation] flag]|e] w1]; simpl in H1;
    [| exact H1].
  pose proof (rmw_modify_upload_tracks modification_cb url_endpoint base_url
                retry local_filename current_generation flag headers w1 Hmark)
    as H2.
  destruct (rmw_modify_upload _ _ _ _ _ _ _ _ w1)
    as [[[[flow flag'] headers']|e] w2]; simpl in H2.
  - pose proof (rmw_finally_frame flag' local_filename
                  (Done (flow, headers')) w2) as (F1 & F2 & _).
    eapply tracks_trans; [exact H1 |].
    eapply tracks_trans; [exact H2 |]. apply tracks_same; assumption.
  - pose proof (rmw_finally_frame (A := Flow * Headers) flag local_filename
                  (Raised e) w2) as (F1 & F2 & _).
    eapply tracks_trans; [exact H1 |].
    eapply tracks_trans; [exact H2 |]. apply tracks_same; assumption.
Qed.

Lemma rmw_loop_tracks (self : HTTPLocation) (modification_cb : ModificationCb)
    (url_endpoint base_url : string) (retries : list nat) :
  conflicts_marked_failed →
  (_get_parameters self None ∅).2 = base_url →
  ∀ (headers : Headers) (w : World),
    tracks base_url w
      (snd (rmw_loop self modification_cb url_endpoint base_url retries
              headers w)).
Proof.
  intros Hmark Hb.
  induction retries as [| retry rest IH]; intros headers w; simpl.
  - apply tracks_refl.
  - pose proof (rmw_attempt_tracks self modification_cb url_endpoint base_url
                  retry headers w Hmark Hb) as H.
    destruct (rmw_attempt _ _ _ _ _ _ w) as [[[flow headers']|e] w1];
      simpl in H; [| exact H].
    destruct flow; simpl; try exact H.
    eapply tracks_trans; [exact H | apply IH].
Qed.

(** Where the cache does follow the confirmed generation: across
    [get_local_filename] always; across [read_modify_write_local_file] when
    the transport marks a PUT answered 304 as failed. In every case the
    upload step of an attempt leaves the cache as it found it unless its PUT
    was marked ok and carried an ETag, whose generation it then records. *)
Lemma cache_tracking_outside_the_slip (self : HTTPLocation)
    (modification_cb : ModificationCb) (routine : option (Status → PyVal))
    (if_modified_since : option Z) (kw : Kwargs) (w : World) :
  (let '(_, _, _, base_url) := _get_parameters self if_modified_since kw in
   tracks base_url w
     (snd (get_local_filename self routine if_modified_since kw w))) ∧
  (conflicts_marked_failed →
   let '(_, _, _, base_url) := _get_parameters self None ∅ in
   tracks base_url w
     (snd (read_modify_write_local_file self modification_cb w))) ∧
  (∀ (url_endpoint base_url : string) (retry : nat) (local_filename : string)
     (current_generation : option Gen) (flag : bool) (headers : Headers),
     let r := rmw_modify_upload modification_cb url_endpoint base_url retry
                local_filename current_generation flag headers w in
     cache (snd r) = cache w ∨
     ∃ (req : Request) (resp : Response) (g : Gen),
       wire (snd r) = (wire w ++ [(req, resp)])%list ∧
       verb req = PUT ∧ ok resp = true ∧ etag resp = ETagToken g ∧
       cache (snd r) = <[base_url := g]> (cache w)).
Proof.
  split; [| split].
  - apply get_local_filename_tracks.
  - intros Hmark. unfold read_modify_write_local_file.
    pose proof (rmw_loop_tracks self modification_cb) as H.
    destruct (_get_parameters self None ∅)
      as [[[url_endpoint params] headers] base_url].
    apply H; [exact Hmark | reflexivity].
  - intros url_endpoint base_url retry local_filename current_generation
      flag headers r. subst r.
    pose proof (rmw_modify_upload_cache modification_cb url_endpoint base_url
                  retry local_filename current_generation flag headers w) as H.
    cbv zeta in H.
    destruct H as [[_ Hc] | (req & resp & Hw & Hverb & _ & H)];
      [left; exact Hc |].
    destruct (ok resp) eqn:Hok.
    + destruct (etag resp) eqn:Hetag; try (left; apply H).
      right. exists req, resp, g. destruct H as [Hc _]. auto.
    + left. apply H.
Qed.

(** C3. Take an attempt in which the download raised IOError, so that a
    scratch file was made. The file exists when the callback is called.
    When the attempt ends in any way other than [return True] (the callback
    raised, the file could not be opened, the upload failed or was answered
    304, the ETag could not be read) the scratch file is gone afterwards.
    When the attempt returns [True], the PUT was answered ok with an ETag and
    the cache has taken the file: it records that generation and holds the
    content at its own path for it. *)
Theorem scratch_file_cleanup (self : HTTPLocation)
    (modification_cb : ModificationCb) (url_endpoint base_url : string)
    (retry : nat) (headers : Headers) (w w1 : World) (msg : string) :
  get_local_filename self None None ∅ w = (Raised (IOError msg), w1) →
  let scratch := mkstemp (files w1) in
  let r := rmw_attempt self modification_cb url_endpoint base_url retry
             headers w in
  files (snd (rmw_materialize self base_url w)) !! scratch = Some "" ∧
  match fst r with
  | Done (Return v, _) =>
      v = PBool true ∧
      ∃ (req : Request) (resp : Response) (g : Gen),
        wire (snd r) = (wire w1 ++ [(req, resp)])%list ∧
        verb req = PUT ∧ ok resp = true ∧ etag resp = ETagToken g ∧
        cache (snd r) !! base_url = Some g ∧
        is_Some (files (snd r) !! cache_file base_url (Some g))
  | _ => files (snd r) !! scratch = None
  end.
Proof.
  intros Hget scratch r. subst r.
  unfold rmw_attempt. rewrite rmw_materialize_cases, Hget. simpl.
  split; [apply lookup_insert_eq |].
  fold scratch.
  unfold rmw_modify_upload, call_modification, open_rb,
    update_local_file_generation, rmw_finally, unlink. run. simpl.
  destruct (modification_cb scratch (<[scratch:=""]> (files w1)))
    as [[e|] fs]; simpl.
  { destruct (fs !! scratch) eqn:Hfile; simpl;
      [apply lookup_delete_eq | exact Hfile]. }
  destruct (fs !! scratch) as [data|] eqn:Hfile; simpl.
  2: { rewrite Hfile. simpl. exact Hfile. }
  destruct (ok (transport _ _)) eqn:Hok; simpl.
  - destruct (etag (transport _ _)) eqn:Hetag; simpl.
    + rewrite Hfile. simpl. apply lookup_delete_eq.
    + rewrite Hfile. simpl. apply lookup_delete_eq.
    + rewrite Hfile. simpl. split; [reflexivity |].
      do 3 eexists. repeat split; try eassumption; try reflexivity.
      * apply lookup_insert_eq.
      * rewrite lookup_insert_eq. eauto.
  - destruct (status_code (transport _ _) =? 304); simpl;
      rewrite Hfile; simpl; apply lookup_delete_eq.
Qed.

(** The statement that raises the conflict error is reached only when an
    attempt falls out of its [try] statement, and no attempt does so when
    the server answers every PUT with 304. *)
Lemma conflict_raise_unreachable_on_304 (self : HTTPLocation)
    (modification_cb : ModificationCb) (url_endpoint base_url : string)
    (retry : nat) (headers headers' : Headers) (w : World) :
  (∀ hist req, verb req = PUT → status_code (transport hist req) = 304) →
  fst (rmw_attempt self modification_cb url_endpoint base_url retry headers w)
    ≠ Done (Fallthrough, headers').
Proof.
  intros H304. unfold rmw_attempt.
  destruct (rmw_materialize self base_url w)
    as [[[[local_filename current_generation] flag]|e] w1]; [| discriminate].
  unfold rmw_modify_upload, call_modification, open_rb,
    update_local_file_generation, rmw_finally, unlink. run. simpl.
  destruct (modification_cb local_filename (files w1)) as [[e|] fs]; simpl.
  { destruct flag; simpl; [| discriminate].
    destruct (fs !! local_filename); discriminate. }
  destruct (fs !! local_filename) as [data|] eqn:Hfile; simpl.
  2: { destruct flag; simpl; [| discriminate]. rewrite Hfile. discriminate. }
  rewrite (H304 _ (put_request _ _ _ _) eq_refl). simpl.
  destruct (ok (transport _ _)); simpl.
  - destruct (etag (transport _ _)); simpl;
      try (destruct flag; simpl; [rewrite Hfile |]; discriminate).
    rewrite Hfile. simpl. discriminate.
  - destruct flag; simpl; [rewrite Hfile |]; discriminate.
Qed.

(** Under the marking of the requests library a 304 is ok, so the test
    [resp.status_code == 304], which comes after [if resp.ok:], never
    succeeds: no attempt ends in [continue]. *)
Lemma continue_unreachable_under_requests (self : HTTPLocation)
    (modification_cb : ModificationCb) (url_endpoint base_url : string)
    (retry : nat) (headers headers' : Headers) (w : World) :
  (∀ hist req, requests_ok (transport hist req)) →
  fst (rmw_attempt self modification_cb url_endpoint base_url retry headers w)
    ≠ Done (Continue, headers').
Proof.
  intros Hreq. unfold rmw_attempt.
  destruct (rmw_materialize self base_url w)
    as [[[[local_filename current_generation] flag]|e] w1]; [| discriminate].
  unfold rmw_modify_upload, call_modification, open_rb,
    update_local_file_generation, rmw_finally, unlink. run. simpl.
  destruct (modification_cb local_filename (files w1)) as [[e|] fs]; simpl.
  { destruct flag; simpl; [| discriminate].
    destruct (fs !! local_filename); discriminate. }
  destruct (fs !! local_filename) as [data|] eqn:Hfile; simpl.
  2: { destruct flag; simpl; [| discriminate]. rewrite Hfile. discriminate. }
  match goal with
  | |- context [transport ?h ?r] =>
      pose proof (Hreq h r) as Hok; unfold requests_ok in Hok;
      destruct (ok (transport h r)) eqn:E; simpl
  end.
  - destruct (etag (transport _ _)); simpl;
      try (destruct flag; simpl; [rewrite Hfile |]; discriminate).
    rewrite Hfile. simpl. discriminate.
  - destruct (status_code (transport _ _) =? 304) eqn:E304; simpl.
    + apply Z.eqb_eq in E304. rewrite E304 in Hok. discriminate.
    + destruct flag; simpl; [rewrite Hfile |]; discriminate.
Qed.

(** When every attempt ends in [continue], the loop runs out and the
    function ends without a [return] statement: the caller gets [None]. *)
Lemma exhausted_retries_return_none (self : HTTPLocation)
    (modification_cb : ModificationCb) (url_endpoint base_url : string)
    (retries : list nat) :
  (∀ retry headers w,
     ∃ headers' w',
       rmw_attempt self modification_cb url_endpoint base_url retry headers w
         = (Done (Continue, headers'), w')) →
  ∀ headers w,
    fst (rmw_loop self modification_cb url_endpoint base_url retries headers w)
      = Done PNone.
Proof.
  intros Hcont. induction retries as [| retry rest IH]; intros headers w;
    simpl; [reflexivity |].
  destruct (Hcont retry headers w) as (headers' & w' & ->). apply IH.
Qed.

End Properties.

Lemma list_files_swallows_errors_witness :
  ok (answer 500 false "boom" ETagMissing) = false ∧
  fst (list_files (env := demo_env (failing_server 500 "boom"))
         demo_location None ∅ empty_world) = Done [].
Proof.
  split; [reflexivity |].
  pose proof (list_files_swallows_errors
                (env := demo_env (failing_server 500 "boom"))
                demo_location None ∅ empty_world) as H.
  cbv beta iota zeta delta [_get_parameters] in H.
  rewrite H; reflexivity.
Defined.

Lemma upload_local_file_unlinks_after_failure_witness :
  let w := with_files {[ "/var/tmp/report" := "payload" ]} empty_world in
  let r := upload_local_file (env := demo_env (failing_server 403 "denied"))
             demo_location (Some "/var/tmp/report") None
             (Some (const_routine PNone)) true None ∅ w in
  files w !! "/var/tmp/report" = Some "payload" ∧
  files (snd r) !! "/var/tmp/report" = None ∧
  length (delivered (snd r)) = 1%nat.
Proof.
  intros w r.
  pose proof (upload_local_file_unlinks_after_failure
                (env := demo_env (failing_server 403 "denied"))
                demo_location "/var/tmp/report" "payload" None
                (const_routine PNone) None ∅ w) as H.
  cbv beta iota zeta delta [_get_parameters] in H.
  destruct (H eq_refl eq_refl) as (Hfiles & _ & Hfail).
  destruct (Hfail eq_refl) as (status & _ & Hdelivered & _).
  split; [reflexivity |]. split.
  - fold r in Hfiles. rewrite Hfiles. apply lookup_delete_eq.
  - fold r in Hdelivered. rewrite Hdelivered. reflexivity.
Defined.

Lemma not_found_expires_then_reports_witness :
  let E := demo_env (failing_server 404 "gone") in
  let w := with_cache {[ demo_path := "g1" ]} empty_world in
  let r := get_local_filename (env := E) demo_location None None ∅ w in
  cache w !! demo_path = Some "g1" ∧
  cache (snd r) !! demo_path = None ∧
  fst r = Raised (IOError "gone").
Proof.
  intros E w r.
  pose proof (not_found_expires_then_reports (env := E)
                demo_location None None ∅ w
                (get_request demo_url ∅
                   (<["If-None-Match" := "g1"]> demo_headers) true)
                (answer 404 false "gone" ETagMissing)) as H.
  cbv beta iota zeta delta [_get_parameters] in H.
  destruct (H ltac:(vm_compute; reflexivity) eq_refl eq_refl)
    as (_ & Hcache & _ & Hraise & _).
  split; [vm_compute; reflexivity |]. split; [exact Hcache | exact Hraise].
Defined.

Lemma not_modified_returns_cached_path_witness :
  let E := demo_env (versioned_server "g1" "v1") in
  let w := with_cache {[ demo_path := "g1" ]} empty_world in
  let r := get_local_filename (env := E) demo_location None None ∅ w in
  cache w !! demo_path = Some "g1" ∧
  fst r = Done (PStr "/cache/clients/C.1/manifest@g1") ∧
  cache (snd r) = cache w.
Proof.
  intros E w r.
  pose proof (not_modified_returns_cached_path (env := E)
                demo_location None None ∅ w "g1"
                (get_request demo_url ∅
                   (<["If-None-Match" := "g1"]> demo_headers) true)
                (answer 304 true "" ETagMissing)) as H.
  cbv beta iota zeta delta [_get_parameters] in H.
  destruct (H ltac:(vm_compute; reflexivity) ltac:(discriminate)
              ltac:(vm_compute; reflexivity)) as (_ & H304).
  destruct (H304 eq_refl) as (Hret & Hcache & _).
  split; [vm_compute; reflexivity |]. split; [exact Hret | exact Hcache].
Defined.

(** C4, as stated, fails: a server may send the empty token as ETag. The
    first download stores it as the generation of the path; the second
    download then sends no validator although the cache holds a generation. *)
Lemma empty_generation_sends_no_validator :
  let E := demo_env (versioned_server "" "v1") in
  let w1 := snd (get_local_filename (env := E) demo_location None None ∅
                   empty_world) in
  let r := get_local_filename (env := E) demo_location None None ∅ w1 in
  cache w1 !! demo_path = Some "" ∧
  ∃ req resp,
    wire (snd r) = (wire w1 ++ [(req, resp)])%list ∧
    req_headers req !! "If-None-Match" = None.
Proof.
  split; [vm_compute; reflexivity |].
  do 2 eexists. split; [vm_compute; reflexivity |]. vm_compute; reflexivity.
Qed.

Lemma completion_routine_channel_witness :
  let E := demo_env (failing_server 500 "boom") in
  let V := demo_env (versioned_server "g1" "v1") in
  let failed := answer 500 false "boom" ETagMissing in
  let cached := with_cache {[ demo_path := "g1" ]} empty_world in
  reported_to (const_routine PNone) failed empty_world
    (upload_file_object (env := E) demo_location (Some "payload")
       (Some (const_routine PNone)) None ∅ empty_world) ∧
  reported_to (const_routine PNone) failed empty_world
    (delete_ (env := E) demo_location (Some (const_routine PNone)) None ∅
       empty_world) ∧
  reported_to (const_routine PNone) failed empty_world
    (get_local_filename (env := E) demo_location (Some (const_routine PNone))
       None ∅ empty_world) ∧
  fst (upload_file_object (env := E) demo_location (Some "payload") None
         None ∅ empty_world) = Raised (IOError "boom") ∧
  fst (delete_ (env := E) demo_location None None ∅ empty_world)
    = Raised (IOError "boom") ∧
  fst (get_local_filename (env := E) demo_location None None ∅ empty_world)
    = Raised (IOError "boom") ∧
  delivered (snd (get_local_filename (env := V) demo_location
                    (Some (const_routine PNone)) None ∅ cached)) = [].
Proof.
  intros E V failed cached.
  pose proof (completion_routine_channel (env := E) demo_location None ∅
                empty_world
                (put_request demo_url (Some "payload") ∅ demo_headers) failed)
    as (Hup & _ & _ & Hraise_up).
  pose proof (completion_routine_channel (env := E) demo_location None ∅
                empty_world
                (get_request demo_url {[ "action" := "delete" ]} demo_headers
                   false) failed)
    as (_ & Hdel & _ & Hraise_del).
  pose proof (completion_routine_channel (env := E) demo_location None ∅
                empty_world
                (get_request demo_url ∅ demo_headers true) failed)
    as (_ & _ & Hget & Hraise_get).
  pose proof (completion_routine_channel (env := V) demo_location None ∅
                cached
                (get_request demo_url ∅
                   (<["If-None-Match" := "g1"]> demo_headers) true)
                (answer 304 true "" ETagMissing))
    as (_ & _ & Hcached & _).
  split. { apply Hup. vm_compute; reflexivity. }
  split. { apply Hdel. vm_compute; reflexivity. }
  split.
  { apply (Hget (const_routine PNone)); [vm_compute; reflexivity | | ].
    - vm_compute; discriminate.
    - vm_compute; discriminate. }
  split.
  { destruct (Hraise_up eq_refl) as (H & _ & _).
    apply (H "payload"). vm_compute; reflexivity. }
  split.
  { destruct (Hraise_del eq_refl) as (_ & H & _).
    apply H. vm_compute; reflexivity. }
  split.
  { destruct (Hraise_get eq_refl) as (_ & _ & H).
    apply H; [vm_compute; reflexivity | vm_compute; discriminate]. }
  destruct (Hcached (const_routine PNone)) as (_ & H304).
  { vm_compute; reflexivity. }
  destruct (H304 eq_refl) as (path & _ & Hd). exact Hd.
Defined.

(** C6, as stated, fails for [get_local_filename]: once the object is in
    the cache and the server answers 304, the call returns the cached path
    and the completion routine is not called at all. *)
Lemma not_modified_skips_completion_routine :
  let E := demo_env (versioned_server "g1" "v1") in
  let routine := const_routine PNone in
  let w1 := snd (get_local_filename (env := E) demo_location (Some routine)
                   None ∅ empty_world) in
  let r := get_local_filename (env := E) demo_location (Some routine)
             None ∅ w1 in
  length (delivered w1) = 1%nat ∧
  fst r = Done (PStr "/cache/clients/C.1/manifest@g1") ∧
  length (wire (snd r)) = S (length (wire w1)) ∧
  delivered (snd r) = delivered w1.
Proof.
  repeat split; vm_compute; reflexivity.
Qed.

Lemma scratch_file_cleanup_witness :
  let E := demo_env (conflict_server false) in
  let w1 := snd (get_local_filename (env := E) demo_location None None ∅
                   empty_world) in
  fst (get_local_filename (env := E) demo_location None None ∅ empty_world)
    = Raised (IOError "not found") ∧
  files (snd (rmw_attempt (env := E) demo_location append_x demo_url demo_path
                0 demo_headers empty_world)) !! "/tmp/tmpAbCdEf" = None ∧
  files (snd (rmw_attempt (env := E) demo_location raising_cb demo_url
                demo_path 0 demo_headers empty_world)) !! "/tmp/tmpAbCdEf"
    = None.
Proof.
  intros E w1.
  pose proof (scratch_file_cleanup (env := E) demo_location append_x
                demo_url demo_path 0 demo_headers empty_world w1 "not found"
                ltac:(vm_compute; reflexivity)) as (_ & H1).
  pose proof (scratch_file_cleanup (env := E) demo_location raising_cb
                demo_url demo_path 0 demo_headers empty_world w1 "not found"
                ltac:(vm_compute; reflexivity)) as (_ & H2).
  split; [vm_compute; reflexivity |]. split.
  - exact H1.
  - exact H2.
Defined.

(** C1, on the code. The object is absent and every PUT is answered 304.
    When the transport marks the 304 as failed, the loop makes five attempts
    (five uploads), sleeps 0, 1, 2, 3 and 4 tenths of a second, the last
    sleep after the fifth attempt, and then returns [None]: no error is
    raised. When the 304 is marked the way the requests library marks it
    (ok, as every status below 400), the first attempt takes the success
    branch and raises KeyError for the missing ETag after one upload. In
    neither case does the call raise the conflict error. *)
Theorem conflict_exhaustion_raises_nothing :
  let failed := read_modify_write_local_file
                  (env := demo_env (conflict_server false))
                  demo_location append_x empty_world in
  let marked_ok := read_modify_write_local_file
                     (env := demo_env (conflict_server true))
                     demo_location append_x empty_world in
  (fst failed = Done PNone ∧
   uploads (wire (snd failed)) = 5%nat ∧
   slept (snd failed) = [0; 1; 2; 3; 4]%nat) ∧
  (fst marked_ok = Raised (KeyError "ETag") ∧
   uploads (wire (snd marked_ok)) = 1%nat ∧
   slept (snd marked_ok) = []).
Proof.
  repeat split; vm_compute; reflexivity.
Qed.

(** C2, on the code. The server serves the object at generation g1 and,
    another writer having moved it on, refuses the conditional upload with
    304, naming the current generation g2 in the ETag of its answer; every
    answer is marked as the requests library marks it, so the 304 is ok.
    [read_modify_write_local_file] tests [resp.ok] before the status: it
    takes the refused upload for a success, records g2 in the cache for the
    file that holds its own refused edits, and returns True. The last
    generation the exchanges confirm is g1, so the cache no longer tracks
    the confirmed generation. *)
Theorem refused_upload_advances_cache :
  let r := read_modify_write_local_file
             (env := demo_env overtaken_server)
             demo_location append_x empty_world in
  (∀ hist req, requests_ok (overtaken_server hist req)) ∧
  wire (snd r) =
    [(get_request demo_url ∅ demo_headers true,
      requests_answer 200 "v1" (ETagToken "g1"));
     (put_request demo_url (Some "v1x") ∅
        (<["If-Match" := "g1"]> demo_headers),
      requests_answer 304 "" (ETagToken "g2"))] ∧
  fst r = Done (PBool true) ∧
  cache (snd r) !! demo_path = Some "g2" ∧
  files (snd r) !! "/cache/clients/C.1/manifest@g2" = Some "v1x" ∧
  confirmed_generation None (wire (snd r)) = Some "g1" ∧
  ¬ tracks demo_path empty_world (snd r).
Proof.
  assert (wire (snd (read_modify_write_local_file
                       (env := demo_env overtaken_server)
                       demo_location append_x empty_world)) =
            [(get_request demo_url ∅ demo_headers true,
              requests_answer 200 "v1" (ETagToken "g1"));
             (put_request demo_url (Some "v1x") ∅
                (<["If-Match" := "g1"]> demo_headers),
              requests_answer 304 "" (ETagToken "g2"))]) as Hwire
    by (vm_compute; reflexivity).
  assert (cache (snd (read_modify_write_local_file
                        (env := demo_env overtaken_server)
                        demo_location append_x empty_world)) !! demo_path =
            Some "g2") as Hcache
    by (vm_compute; reflexivity).
  cbv zeta.
  split; [| split; [exact Hwire | split; [| split; [exact Hcache | split;
    [| split]]]]].
  - intros hist req. unfold overtaken_server.
    destruct (verb req); vm_compute; reflexivity.
  - vm_compute; reflexivity.
  - vm_compute; reflexivity.
  - rewrite Hwire. vm_compute; reflexivity.
  - intros (new & Hnew & Hgen & _).
    rewrite Hwire in Hnew. simpl in Hnew. subst new.
    rewrite Hcache in Hgen. vm_compute in Hgen. discriminate Hgen.
Qed.

(** * Further properties of the handler *)

Section Paths.
Context {env : Env}.

(** ** URLs, paths and headers *)

Lemma rstrip_slash_cons (a : ascii) (s : string) :
  rstrip_slash (String a s) =
    if Ascii.eqb a "/" && negb (truthy_str (rstrip_slash s))
    then EmptyString
    else String a (rstrip_slash s).
Proof.
  cbn [rstrip_slash].
  destruct (rstrip_slash s) as [| b r]; cbn [truthy_str negb];
    destruct a as [[] [] [] [] [] [] [] []]; reflexivity.
Qed.

Lemma rstrip_slash_append_slash (s : string) :
  rstrip_slash (s +:+ "/") = rstrip_slash s.
Proof.
  induction s as [| a s IH].
  - reflexivity.
  - change (String a s +:+ "/") with (String a (s +:+ "/")).
    rewrite !rstrip_slash_cons, IH. reflexivity.
Qed.

Lemma rstrip_slash_no_trailing_slash (s : string) :
  ends_with_slash (rstrip_slash s) = false.
Proof.
  induction s as [| a s IH]; [reflexivity |].
  rewrite rstrip_slash_cons.
  destruct (rstrip_slash s) as [| b r] eqn:E; cbn [truthy_str negb].
  - rewrite andb_true_r. destruct (Ascii.eqb a "/") eqn:Ea; [reflexivity |].
    simpl. exact Ea.
  - rewrite andb_false_r. exact IH.
Qed.

Lemma lstrip_slash_no_leading_slash (s : string) :
  startswith_slash (lstrip_slash s) = false.
Proof.
  induction s as [| a s IH]; [reflexivity |].
  destruct a as [[] [] [] [] [] [] [] []]; try reflexivity. exact IH.
Qed.

Lemma rstrip_slash_decompose (s : string) :
  ∃ n, s = rstrip_slash s +:+ slashes n.
Proof.
  induction s as [| a s [n IH]]; [exists 0%nat; reflexivity |].
  rewrite rstrip_slash_cons.
  destruct (Ascii.eqb_spec a "/") as [-> | Hne]; cbn [andb].
  - destruct (rstrip_slash s) as [| b r] eqn:E; cbn [truthy_str negb].
    + exists (S n). rewrite IH at 1. reflexivity.
    + exists n. rewrite IH at 1. reflexivity.
  - exists n. rewrite IH at 1. reflexivity.
Qed.

Lemma lstrip_slash_decompose (s : string) :
  ∃ m, s = slashes m +:+ lstrip_slash s.
Proof.
  induction s as [| a s [m IH]]; [exists 0%nat; reflexivity |].
  destruct (Ascii.eqb_spec a "/") as [-> | Hne].
  - exists (S m). cbn [lstrip_slash slashes]. rewrite IH at 1. reflexivity.
  - exists 0%nat. cbn [slashes].
    destruct a as [[] [] [] [] [] [] [] []]; try reflexivity.
    contradiction Hne; reflexivity.
Qed.

(** X1. The URL [_join_url] builds has one slash at the junction, however
    many the two sides bring: with [b] the base without the slashes that end
    it and [p] the joined components without the slashes that start them,
    the URL is [b], one slash, [p]. Writing the base with or without a
    trailing slash gives the same URL. *)
Theorem join_url_single_junction (base : string) (components : list string) :
  (∃ (b p : string) (n m : nat),
     base = b +:+ slashes n ∧ ends_with_slash b = false ∧
     join_path components = slashes m +:+ p ∧ startswith_slash p = false ∧
     _join_url base components = b +:+ "/" +:+ p) ∧
  _join_url (base +:+ "/") components = _join_url base components.
Proof.
  unfold _join_url. split.
  - destruct (rstrip_slash_decompose base) as [n Hn].
    destruct (lstrip_slash_decompose (join_path components)) as [m Hm].
    exists (rstrip_slash base), (lstrip_slash (join_path components)), n, m.
    split; [exact Hn |].
    split; [apply rstrip_slash_no_trailing_slash |].
    split; [exact Hm |].
    split; [apply lstrip_slash_no_leading_slash | reflexivity].
  - rewrite rstrip_slash_append_slash. reflexivity.
Qed.

Lemma get_parameters_params (self : HTTPLocation)
    (if_modified_since : option Z) (kw : Kwargs) :
  (_get_parameters self if_modified_since kw).1.1.2 = ∅.
Proof. reflexivity. Qed.

Lemma get_parameters_unconditional (self : HTTPLocation)
    (if_modified_since : option Z) (kw : Kwargs) :
  (_get_parameters self if_modified_since kw).1.2 !! "If-Match" = None ∧
  (_get_parameters self if_modified_since kw).1.2 !! "If-None-Match" = None.
Proof.
  unfold _get_parameters, truthy_opt_Z.
  destruct if_modified_since as [t|]; [destruct (negb (t =? 0)) |];
    split; reflexivity.
Qed.

(** X2. The headers [_get_parameters] builds always carry
    [Cache-Control: private] and the encoded policy and signature; the query
    parameters start empty; [If-Modified-Since] is present exactly when the
    time given is a true Python value, so the time 0 (the epoch) is dropped
    like a missing one. *)
Theorem get_parameters_headers (self : HTTPLocation)
    (if_modified_since : option Z) (kw : Kwargs) :
  let '(_, params, headers, _) := _get_parameters self if_modified_since kw in
  params = ∅ ∧
  headers !! "Cache-Control" = Some "private" ∧
  headers !! "x-rekall-policy" = Some (b64encode (policy self)) ∧
  headers !! "x-rekall-signature" = Some (b64encode (signature self)) ∧
  headers !! "If-Modified-Since" =
    match if_modified_since with
    | Some 0 | None => None
    | Some t => Some (format_date_time t)
    end ∧
  headers !! "If-None-Match" = None ∧
  headers !! "If-Match" = None.
Proof.
  unfold _get_parameters, truthy_opt_Z.
  destruct if_modified_since as [t|]; [destruct (Z.eqb_spec t 0) as [-> | Hne] |];
    cbn [negb]; repeat split; try reflexivity.
  destruct t; [congruence | |]; reflexivity.
Qed.

(** X3. [expand_path] overwrites the [client_id] and [nonce] keyword
    arguments with the values of the agent configuration: whatever the
    caller passes under these two names has no effect on the path, the URL
    or the headers. *)
Theorem expand_path_overrides_identity (self : HTTPLocation)
    (if_modified_since : option Z) (kw : Kwargs) (id n : string) :
  expand_path self (<["client_id" := id]> (<["nonce" := n]> kw))
    = expand_path self kw ∧
  _get_parameters self if_modified_since
      (<["client_id" := id]> (<["nonce" := n]> kw))
    = _get_parameters self if_modified_since kw.
Proof.
  assert (expand_path self (<["client_id" := id]> (<["nonce" := n]> kw))
          = expand_path self kw) as H.
  { unfold expand_path. f_equal. apply map_eq. intros k.
    rewrite !lookup_insert. repeat case_decide; congruence. }
  split; [exact H |].
  unfold _get_parameters. rewrite H. reflexivity.
Qed.

End Paths.

Section Download.
Context {env : Env}.

(** ** More on the conditional download *)

Ltac bind := unfold mbind, M_bind, mret, M_ret, expire.

Lemma get_local_filename_sent (self : HTTPLocation)
    (routine : option (Status → PyVal)) (if_modified_since : option Z)
    (kw : Kwargs) (w : World) (req : Request) (resp : Response) :
  let '(url_endpoint, params, headers, base_url) :=
    _get_parameters self if_modified_since kw in
  wire (snd (get_local_filename self routine if_modified_since kw w))
    = (wire w ++ [(req, resp)])%list →
  req = get_request url_endpoint params
          (validated (cache w !! base_url) headers) true ∧
  resp = transport (wire w) req.
Proof.
  pose proof (get_local_filename_wire self routine if_modified_since kw w) as Hw.
  destruct (_get_parameters self if_modified_since kw)
    as [[[url_endpoint params] headers] base_url].
  cbv zeta in Hw. intros Hwire. rewrite Hw in Hwire.
  apply app_inj_tail in Hwire as [_ Heq]. injection Heq as <- <-. auto.
Qed.

(** What a full, ok answer with a decodable ETag does. *)
Lemma get_local_filename_stores (self : HTTPLocation)
    (routine : option (Status → PyVal)) (if_modified_since : option Z)
    (kw : Kwargs) (w : World) (g : Gen) :
  let '(url_endpoint, params, headers, base_url) :=
    _get_parameters self if_modified_since kw in
  let req := get_request url_endpoint params
               (validated (cache w !! base_url) headers) true in
  let resp := transport (wire w) req in
  let r := get_local_filename self routine if_modified_since kw w in
  status_code resp ≠ 304 → ok resp = true → etag resp = ETagToken g →
  fst r = Done (PStr (cache_file base_url (Some g))) ∧
  cache (snd r) = <[base_url := g]> (cache w) ∧
  files (snd r) = <[cache_file base_url (Some g) := content resp]> (files w).
Proof.
  pose proof (get_local_filename_cases self routine if_modified_since kw w) as H.
  destruct (_get_parameters self if_modified_since kw)
    as [[[url_endpoint params] headers] base_url].
  cbv zeta in H |- *. intros Hne Hok Hetag. rewrite H. clear H.
  apply Z.eqb_neq in Hne. rewrite Hne, Hok, Hetag. cbn [negb]. bind.
  destruct routine as [f|];
    [ rewrite report_error_with_routine
    | rewrite report_error_without_routine, Hok ]; simpl; auto.
Qed.

(** X4. The cache hit path. After a download that was answered ok with a
    non-empty generation, the next download of the same location sends
    [If-None-Match] with that generation; when it is answered 304 it returns
    the same file name as the first, and that file still holds the body of
    the first answer. *)
Theorem cache_hit_round_trip (self : HTTPLocation)
    (routine1 routine2 : option (Status → PyVal))
    (if_modified_since : option Z) (kw : Kwargs) (w : World)
    (req1 req2 : Request) (resp1 resp2 : Response) (g : Gen) :
  let '(_, _, _, base_url) := _get_parameters self if_modified_since kw in
  let r1 := get_local_filename self routine1 if_modified_since kw w in
  let r2 := get_local_filename self routine2 if_modified_since kw (snd r1) in
  wire (snd r1) = (wire w ++ [(req1, resp1)])%list →
  wire (snd r2) = (wire (snd r1) ++ [(req2, resp2)])%list →
  status_code resp1 ≠ 304 → ok resp1 = true → etag resp1 = ETagToken g →
  g ≠ "" →
  status_code resp2 = 304 →
  ∃ name,
    fst r1 = Done (PStr name) ∧
    fst r2 = Done (PStr name) ∧
    req_headers req2 !! "If-None-Match" = Some g ∧
    files (snd r2) !! name = Some (content resp1) ∧
    cache (snd r2) !! base_url = Some g.
Proof.
  pose proof (get_local_filename_sent self routine1 if_modified_since kw w
                req1 resp1) as S1.
  pose proof (get_local_filename_stores self routine1 if_modified_since kw w g)
    as St.
  pose proof (get_local_filename_sent self routine2 if_modified_since kw
                (snd (get_local_filename self routine1 if_modified_since kw w))
                req2 resp2) as S2.
  pose proof (get_local_filename_cases self routine2 if_modified_since kw
                (snd (get_local_filename self routine1 if_modified_since kw w)))
    as C2.
  destruct (_get_parameters self if_modified_since kw)
    as [[[url_endpoint params] headers] base_url].
  cbv zeta in St, C2 |- *.
  intros W1 W2 Hne Hok Hetag Hg H304.
  destruct (S1 W1) as [Hreq1 Hresp1]. rewrite <- Hreq1, <- Hresp1 in St.
  destruct (St Hne Hok Hetag) as (F1 & Hc & Hf).
  destruct (S2 W2) as [Hreq2 Hresp2].
  rewrite <- Hreq2, <- Hresp2 in C2. rewrite H304 in C2. simpl in C2.
  assert (cache (get_local_filename self routine1 if_modified_since kw w).2
            !! base_url = Some g) as Hlook
    by (rewrite Hc; apply lookup_insert_eq).
  rewrite Hlook in C2, Hreq2.
  exists (cache_file base_url (Some g)).
  rewrite C2. simpl. repeat split; auto.
  - rewrite Hreq2. unfold validated.
    destruct g; [congruence |]. simpl. apply lookup_insert_eq.
  - rewrite Hf. apply lookup_insert_eq.
Qed.

(** X5. A failed download that is neither a 304 nor a 404 leaves the cache
    entry and the local files as they were: only a 404 expires the local
    copy. *)
Theorem failed_download_keeps_cache (self : HTTPLocation)
    (routine : option (Status → PyVal)) (if_modified_since : option Z)
    (kw : Kwargs) (w : World) (req : Request) (resp : Response) :
  let r := get_local_filename self routine if_modified_since kw w in
  wire (snd r) = (wire w ++ [(req, resp)])%list →
  ok resp = false → status_code resp ≠ 304 → status_code resp ≠ 404 →
  cache (snd r) = cache w ∧ files (snd r) = files w ∧
  (routine = None → fst r = Raised (IOError (text resp))).
Proof.
  pose proof (get_local_filename_sent self routine if_modified_since kw w
                req resp) as S.
  pose proof (get_local_filename_cases self routine if_modified_since kw w) as C.
  destruct (_get_parameters self if_modified_since kw)
    as [[[url_endpoint params] headers] base_url].
  cbv zeta in C |- *. intros W Hok H304 H404.
  destruct (S W) as [Hreq Hresp]. rewrite <- Hreq, <- Hresp in C.
  apply Z.eqb_neq in H304, H404. rewrite H304, Hok, H404 in C.
  cbn [negb] in C. rewrite C. bind.
  destruct routine as [f|];
    [ rewrite report_error_with_routine
    | rewrite report_error_without_routine, Hok ]; simpl; auto.
  repeat split; auto. discriminate.
Qed.

(** X6. An answer that is ok but carries no ETag header, or one that does
    not decode, makes the download raise (KeyError, ValueError) before
    anything is stored: the cache and the local files are unchanged and the
    completion routine, supplied or not, is not called. *)
Theorem download_without_etag_raises (self : HTTPLocation)
    (routine : option (Status → PyVal)) (if_modified_since : option Z)
    (kw : Kwargs) (w : World) (req : Request) (resp : Response) :
  let r := get_local_filename self routine if_modified_since kw w in
  wire (snd r) = (wire w ++ [(req, resp)])%list →
  ok resp = true → status_code resp ≠ 304 →
  (∀ g, etag resp ≠ ETagToken g) →
  fst r = Raised (match etag resp with
                  | ETagMalformed => ValueError
                  | _ => KeyError "ETag"
                  end) ∧
  cache (snd r) = cache w ∧ files (snd r) = files w ∧
  delivered (snd r) = delivered w.
Proof.
  pose proof (get_local_filename_sent self routine if_modified_since kw w
                req resp) as S.
  pose proof (get_local_filename_cases self routine if_modified_since kw w) as C.
  destruct (_get_parameters self if_modified_since kw)
    as [[[url_endpoint params] headers] base_url].
  cbv zeta in C |- *. intros W Hok H304 Hetag.
  destruct (S W) as [Hreq Hresp]. rewrite <- Hreq, <- Hresp in C.
  apply Z.eqb_neq in H304. rewrite H304, Hok in C. cbn [negb] in C.
  rewrite C.
  destruct (etag resp) as [| | g]; simpl; auto.
  exfalso. exact (Hetag g eq_refl).
Qed.

End Download.

Section Wrappers.
Context {env : Env}.

Arguments _report_error : simpl never.

(** ** More on the remote operations *)

(** X7. [delete] asks the server with one GET that carries [action=delete]
    and the usual headers; it never touches the local cache or the local
    files, so a cached copy and its generation survive the deletion
    whatever the server answers. *)
Theorem delete_leaves_cache (self : HTTPLocation)
    (routine : option (Status → PyVal)) (if_modified_since : option Z)
    (kw : Kwargs) (w : World) :
  let '(url_endpoint, _, headers, _) := _get_parameters self if_modified_since kw in
  let r := delete_ self routine if_modified_since kw w in
  ∃ resp,
    wire (snd r) =
      (wire w ++ [(get_request url_endpoint {[ "action" := "delete" ]}
                     headers false, resp)])%list ∧
    cache (snd r) = cache w ∧
    files (snd r) = files w.
Proof.
  pose proof (delete_cases self routine if_modified_since kw w) as H.
  pose proof (get_parameters_params self if_modified_since kw) as Hp.
  destruct (_get_parameters self if_modified_since kw)
    as [[[url_endpoint params] headers] base_url].
  cbv zeta in H |- *. simpl in Hp. subst params. rewrite H.
  eexists. split; [| split].
  - rewrite report_error_wire. simpl. reflexivity.
  - destruct routine as [f|];
      [ rewrite report_error_with_routine
      | rewrite report_error_without_routine ]; reflexivity.
  - destruct routine as [f|];
      [ rewrite report_error_with_routine
      | rewrite report_error_without_routine ]; reflexivity.
Qed.

(** X8. [write_file] is an unconditional overwrite: it sends one PUT whose
    body is the data given, with neither [If-Match] nor [If-None-Match], and
    it does not record anything in the cache, not even after a successful
    write. *)
Theorem write_file_unconditional (self : HTTPLocation) (data : string)
    (routine : option (Status → PyVal)) (if_modified_since : option Z)
    (kw : Kwargs) (w : World) :
  let r := write_file self data routine if_modified_since kw w in
  ∃ req resp,
    wire (snd r) = (wire w ++ [(req, resp)])%list ∧
    verb req = PUT ∧ req_data req = Some data ∧
    req_headers req !! "If-Match" = None ∧
    req_headers req !! "If-None-Match" = None ∧
    cache (snd r) = cache w ∧ files (snd r) = files w.
Proof.
  unfold write_file.
  pose proof (upload_file_object_cases self data routine if_modified_since kw w)
    as H.
  pose proof (get_parameters_unconditional self if_modified_since kw) as [H1 H2].
  destruct (_get_parameters self if_modified_since kw)
    as [[[url_endpoint params] headers] base_url].
  cbv zeta in H |- *. simpl in H1, H2. rewrite H.
  do 2 eexists. split; [rewrite report_error_wire; reflexivity |].
  split; [reflexivity |]. split; [reflexivity |].
  split; [exact H1 |]. split; [exact H2 |].
  destruct routine as [f|];
    [ rewrite report_error_with_routine
    | rewrite report_error_without_routine ]; split; reflexivity.
Qed.

(** X9. With a named local file that exists and [delete] left at [True],
    [upload_local_file] removes the file exactly when the call returns: after
    a failed upload without a completion routine it raises the IOError of
    the response and the file is still there. *)
Theorem upload_local_file_unlinks_iff_returns (self : HTTPLocation)
    (name data : string) (fd : option string)
    (routine : option (Status → PyVal)) (if_modified_since : option Z)
    (kw : Kwargs) (w : World) :
  let r := upload_local_file self (Some name) fd routine true
             if_modified_since kw w in
  truthy_str name = true →
  files w !! name = Some data →
  match fst r with
  | Done _ => files (snd r) = delete name (files w)
  | Raised e =>
      files (snd r) = files w ∧ routine = None ∧
      ∃ req resp, wire (snd r) = (wire w ++ [(req, resp)])%list ∧
                  ok resp = false ∧ e = IOError (text resp)
  end.
Proof.
  cbv zeta. intros Hname Hfile.
  unfold upload_local_file. rewrite Hname. cbn [andb].
  unfold mbind, M_bind, mret, M_ret, open_rb, unlink. rewrite Hfile.
  pose proof (upload_file_object_cases self data routine if_modified_since kw w)
    as H.
  destruct (_get_parameters self if_modified_since kw)
    as [[[url_endpoint params] headers] base_url] eqn:Hp.
  cbv zeta in H. rewrite H.
  destruct routine as [f|].
  - rewrite report_error_with_routine. simpl. rewrite Hfile. reflexivity.
  - rewrite report_error_without_routine.
    destruct (ok (transport _ _)) eqn:Hok; simpl.
    + rewrite Hfile. reflexivity.
    + repeat split; auto. do 2 eexists. split; [reflexivity |]. auto.
Qed.

(** X10. When the named local file does not exist, [upload_local_file]
    raises the IOError of [open] before any request is made: nothing is sent,
    no routine is called and the world is unchanged. *)
Theorem upload_local_file_missing_file (self : HTTPLocation) (name : string)
    (fd : option string) (routine : option (Status → PyVal)) (del : bool)
    (if_modified_since : option Z) (kw : Kwargs) (w : World) :
  truthy_str name = true →
  files w !! name = None →
  upload_local_file self (Some name) fd routine del if_modified_since kw w
    = (Raised (IOError name), w).
Proof.
  intros Hname Hfile. unfold upload_local_file. rewrite Hname.
  unfold mbind, M_bind, open_rb. rewrite Hfile. reflexivity.
Qed.

(** X11. A successful listing yields one stat per element of the array the
    server sent, in the order of the array; an ok answer whose body does not
    decode raises instead of yielding nothing. *)
Theorem list_files_in_server_order (self : HTTPLocation)
    (if_modified_since : option Z) (kw : Kwargs) (w : World) :
  let '(url_endpoint, params, headers, _) := _get_parameters self if_modified_since kw in
  let req := get_request url_endpoint (<["action" := "list"]> params) headers false in
  let resp := transport (wire w) req in
  let r := list_files self if_modified_since kw w in
  ok resp = true →
  match json_loads (text resp) with
  | Some stats =>
      ∃ l, fst r = Done l ∧ primitive <$> l = stats
  | None => fst r = Raised ValueError
  end.
Proof.
  unfold list_files.
  destruct (_get_parameters self if_modified_since kw)
    as [[[url_endpoint params] headers] path].
  cbv zeta. intros Hok.
  unfold mbind, M_bind, http_get, send. simpl. rewrite Hok.
  destruct (json_loads _) as [stats|]; simpl; [| reflexivity].
  eexists. split; [reflexivity |].
  induction stats as [| x xs IH]; simpl; [reflexivity |]. f_equal. exact IH.
Qed.

(** X12. Anchoring is idempotent: a prefix given without its leading slash
    and the same prefix given with it issue the same policy, signature and
    location. *)
Theorem New_anchoring_idempotent (prefix : string)
    (given : option (list string)) (now : Z) (expiration : option Z)
    (template : string) (is_public : bool) :
  startswith_slash prefix = false →
  New (Some ("/" +:+ prefix)) given now expiration template is_public
    = New (Some prefix) given now expiration template is_public.
Proof.
  intros H. unfold New. rewrite H. reflexivity.
Qed.

End Wrappers.

Section ReadModifyWrite.
Context {env : Env}.

(** ** More on the read-modify-write loop *)

Ltac steps :=
  unfold rmw_modify_upload, call_modification, open_rb,
    update_local_file_generation, etag_generation, sleep, http_put, send,
    mbind, M_bind, mret, M_ret, raise.

(** The upload step when the callback returns and leaves the file in
    place. *)
Lemma rmw_modify_upload_sends (modification_cb : ModificationCb)
    (url_endpoint base_url : string) (retry : nat) (local_filename : string)
    (current_generation : option Gen) (flag : bool) (headers : Headers)
    (w : World) (fs : Files) (data : string) :
  modification_cb local_filename (files w) = (None, fs) →
  fs !! local_filename = Some data →
  let hdrs := preconditioned current_generation headers in
  let req := put_request url_endpoint (Some data) ∅ hdrs in
  let resp := transport (wire w) req in
  let w1 := with_wire (wire w ++ [(req, resp)]) (with_files fs w) in
  rmw_modify_upload modification_cb url_endpoint base_url retry local_filename
    current_generation flag headers w =
    if ok resp then
      match etag resp with
      | ETagToken g =>
          (Done (Return (PBool true), false, hdrs),
           with_cache (<[base_url := g]> (cache w))
             (with_files (<[cache_file base_url (Some g) := data]>
                            (delete local_filename fs)) w1))
      | ETagMissing => (Raised (KeyError "ETag"), w1)
      | ETagMalformed => (Raised ValueError, w1)
      end
    else if status_code resp =? 304 then
      (Done (Continue, flag, hdrs), with_slept (slept w ++ [retry]) w1)
    else (Done (Fallthrough, flag, hdrs), w1).
Proof.
  intros Hcb Hfile. cbv zeta. steps. rewrite Hcb. simpl. rewrite Hfile.
  unfold preconditioned.
  assert (match current_generation with
          | Some g =>
              if truthy_opt_str current_generation
              then <["If-Match":=g]> headers else headers
          | None => headers
          end
          = match current_generation with
            | Some g => if truthy_str g then <["If-Match":=g]> headers else headers
            | None => headers
            end) as -> by (destruct current_generation; reflexivity).
  simpl.
  destruct (ok (transport _ _)); simpl.
  - destruct (etag (transport _ _)); simpl; try reflexivity.
    rewrite Hfile. reflexivity.
  - destruct (status_code (transport _ _) =? 304); reflexivity.
Qed.

(** The upload step when the callback raises, or removes the file. *)
Lemma rmw_modify_upload_aborts (modification_cb : ModificationCb)
    (url_endpoint base_url : string) (retry : nat) (local_filename : string)
    (current_generation : option Gen) (flag : bool) (headers : Headers)
    (w : World) (fs : Files) (raised : option Exn) :
  modification_cb local_filename (files w) = (raised, fs) →
  (raised = None → fs !! local_filename = None) →
  rmw_modify_upload modification_cb url_endpoint base_url retry local_filename
    current_generation flag headers w =
    (Raised (default (IOError local_filename) raised), with_files fs w).
Proof.
  intros Hcb Hfile. steps. rewrite Hcb.
  destruct raised as [e|]; simpl; [reflexivity |].
  rewrite (Hfile eq_refl). reflexivity.
Qed.

(** X13. What an attempt uploads. When the callback returns and leaves
    the file in place, the attempt sends one PUT whose body is the content
    the callback left in the file; the PUT carries [If-Match] with the
    generation read from the cache when that generation is non-empty, and
    otherwise exactly the headers the attempt started with. When the step
    does not raise, it hands the headers it sent on to the next attempt. *)
Theorem attempt_uploads_callback_output (modification_cb : ModificationCb)
    (url_endpoint base_url : string) (retry : nat) (local_filename : string)
    (current_generation : option Gen) (flag : bool) (headers : Headers)
    (w : World) (fs : Files) (data : string) :
  modification_cb local_filename (files w) = (None, fs) →
  fs !! local_filename = Some data →
  let r := rmw_modify_upload modification_cb url_endpoint base_url retry
             local_filename current_generation flag headers w in
  let sent := match current_generation with
              | Some (String a g) => <["If-Match" := String a g]> headers
              | _ => headers
              end in
  (∃ resp,
     wire (snd r) =
       (wire w ++ [(put_request url_endpoint (Some data) ∅ sent, resp)])%list) ∧
  (∀ flow flag' headers', fst r = Done (flow, flag', headers') → headers' = sent).
Proof.
  intros Hcb Hfile r sent. subst r.
  rewrite (rmw_modify_upload_sends _ _ _ _ _ _ _ _ _ _ _ Hcb Hfile).
  assert (preconditioned current_generation headers = sent) as ->.
  { unfold preconditioned, sent. destruct current_generation as [[| a g]|];
      reflexivity. }
  split.
  - eexists.
    destruct (ok (transport _ _)); [destruct (etag (transport _ _)) |
      destruct (status_code (transport _ _) =? 304)]; reflexivity.
  - intros flow flag' headers'.
    destruct (ok (transport _ _)); [destruct (etag (transport _ _)) |
      destruct (status_code (transport _ _) =? 304)]; simpl;
      intros [=]; congruence.
Qed.

Lemma uploads_app (l1 l2 : list Exchange) :
  uploads (l1 ++ l2) = (uploads l1 + uploads l2)%nat.
Proof.
  unfold uploads. rewrite List.filter_app, length_app. reflexivity.
Qed.

Lemma get_local_filename_slept (self : HTTPLocation)
    (routine : option (Status → PyVal)) (if_modified_since : option Z)
    (kw : Kwargs) (w : World) :
  slept (snd (get_local_filename self routine if_modified_since kw w)) = slept w.
Proof.
  pose proof (get_local_filename_cases self routine if_modified_since kw w) as H.
  destruct (_get_parameters self if_modified_since kw)
    as [[[url_endpoint params] headers] base_url].
  cbv zeta in H. rewrite H. clear H.
  destruct (status_code _ =? 304); [reflexivity |].
  destruct (ok _) eqn:Hok; cbn [negb].
  - destruct (etag _); try reflexivity.
    unfold mbind, M_bind.
    destruct routine as [f|];
      [ rewrite report_error_with_routine
      | rewrite report_error_without_routine, Hok ]; reflexivity.
  - unfold mbind, M_bind.
    destruct (status_code _ =? 404); unfold expire, mret, M_ret;
      (destruct routine as [f|];
       [ rewrite report_error_with_routine
       | rewrite report_error_without_routine, Hok ]); reflexivity.
Qed.

(** The download of an attempt: one GET, no sleep. *)
Lemma rmw_materialize_effect (self : HTTPLocation) (base_url : string)
    (w : World) :
  let r := rmw_materialize self base_url w in
  ∃ req resp,
    wire (snd r) = (wire w ++ [(req, resp)])%list ∧ verb req = GET ∧
    slept (snd r) = slept w.
Proof.
  cbv zeta. rewrite rmw_materialize_cases.
  pose proof (get_local_filename_wire self None None ∅ w) as Hw.
  pose proof (get_local_filename_slept self None None ∅ w) as Hs.
  destruct (_get_parameters self None ∅)
    as [[[url_endpoint params] headers] path].
  cbv zeta in Hw.
  destruct (get_local_filename self None None ∅ w) as [[v|e] w1];
    simpl in Hw, Hs; do 2 eexists.
  - destruct v; simpl; (split; [exact Hw |]; split; [reflexivity | exact Hs]).
  - destruct e; simpl; (split; [exact Hw |]; split; [reflexivity | exact Hs]).
Qed.

(** Everything after the download, in one statement: at most one PUT; a
    sleep exactly when the attempt ends in [continue], which takes one PUT;
    [return] only with [True] and a committed upload. *)
Lemma rmw_attempt_rest (self : HTTPLocation) (modification_cb : ModificationCb)
    (url_endpoint base_url : string) (retry : nat) (headers : Headers)
    (w w1 : World) (local_filename : string)
    (current_generation : option Gen) (flag : bool) :
  rmw_materialize self base_url w
    = (Done (local_filename, current_generation, flag), w1) →
  let r := rmw_attempt self modification_cb url_endpoint base_url retry
             headers w in
  ∃ new,
    wire (snd r) = (wire w1 ++ new)%list ∧
    (length new ≤ 1)%nat ∧ uploads new = length new ∧
    match fst r with
    | Done (Continue, _) =>
        slept (snd r) = (slept w1 ++ [retry])%list ∧ length new = 1%nat
    | Done (Return v, _) =>
        slept (snd r) = slept w1 ∧ v = PBool true ∧
        committed base_url cache_file new (snd r)
    | _ => slept (snd r) = slept w1
    end.
Proof.
  intros Hm. cbv zeta. unfold rmw_attempt. rewrite Hm.
  destruct (modification_cb local_filename (files w1)) as [raised fs] eqn:Hcb.
  destruct raised as [e|].
  { rewrite (rmw_modify_upload_aborts _ _ _ _ _ _ _ _ _ _ _ Hcb)
      by discriminate.
    exists []. rewrite app_nil_r. unfold rmw_finally, unlink. simpl.
    destruct flag; simpl; [destruct (fs !! local_filename) |]; simpl; auto. }
  destruct (fs !! local_filename) as [data|] eqn:Hfile.
  2: { rewrite (rmw_modify_upload_aborts _ _ _ _ _ _ _ _ _ _ _ Hcb)
         by (intros _; exact Hfile).
       exists []. rewrite app_nil_r. unfold rmw_finally, unlink. simpl.
       destruct flag; simpl; [rewrite Hfile |]; simpl; auto. }
  rewrite (rmw_modify_upload_sends _ _ _ _ _ _ _ _ _ _ _ Hcb Hfile).
  eexists [(_, _)].
  unfold rmw_finally, unlink.
  destruct (ok (transport _ _)) eqn:Hok.
  - destruct (etag (transport _ _)) eqn:Hetag; simpl.
    + destruct flag; simpl; [rewrite Hfile |]; simpl; auto.
    + destruct flag; simpl; [rewrite Hfile |]; simpl; auto.
    + repeat split; auto.
      eexists [], _, _, g. simpl. repeat split; eauto.
      * apply lookup_insert_eq.
      * apply lookup_insert_eq.
  - destruct (status_code (transport _ _) =? 304); simpl;
      (destruct flag; simpl; [rewrite Hfile |]; simpl; auto).
Qed.

Lemma rmw_attempt_outcome (self : HTTPLocation) (modification_cb : ModificationCb)
    (url_endpoint base_url : string) (retry : nat) (headers : Headers)
    (w : World) :
  let r := rmw_attempt self modification_cb url_endpoint base_url retry
             headers w in
  ∃ new,
    wire (snd r) = (wire w ++ new)%list ∧
    (length new ≤ 2)%nat ∧ (uploads new ≤ 1)%nat ∧
    match fst r with
    | Done (Continue, _) =>
        slept (snd r) = (slept w ++ [retry])%list ∧ uploads new = 1%nat
    | Done (Return v, _) =>
        slept (snd r) = slept w ∧ v = PBool true ∧
        committed base_url cache_file new (snd r)
    | _ => slept (snd r) = slept w
    end.
Proof.
  cbv zeta.
  pose proof (rmw_materialize_effect self base_url w) as (greq & gresp & Hw & Hv & Hs).
  destruct (rmw_materialize self base_url w)
    as [[[[local_filename current_generation] flag]|e] w1] eqn:Hm.
  - pose proof (rmw_attempt_rest self modification_cb url_endpoint base_url
                  retry headers w w1 local_filename current_generation flag Hm)
      as (new & Hw2 & Hlen & Hup & Hout).
    simpl in Hw, Hs. cbv zeta in Hw2, Hup, Hout.
    exists ((greq, gresp) :: new).
    split; [rewrite Hw2, Hw, <- app_assoc; reflexivity |].
    split; [simpl; lia |].
    assert (uploads ((greq, gresp) :: new) = uploads new) as Hu
      by (unfold uploads; simpl; rewrite Hv; reflexivity).
    rewrite Hu. split; [lia |].
    destruct (fst (rmw_attempt _ _ _ _ _ _ w)) as [[[| | v] h]|e];
      rewrite <- ?Hs; try exact Hout.
    + destruct Hout as [H1 H2]. split; [exact H1 | lia].
    + destruct Hout as (H1 & H2 & earlier & req & resp & g & H3 & H4).
      split; [exact H1 |]. split; [exact H2 |].
      exists ((greq, gresp) :: earlier), req, resp, g.
      split; [rewrite H3; reflexivity | exact H4].
  - unfold rmw_attempt. rewrite Hm. simpl in *.
    exists [(greq, gresp)]. split; [exact Hw |].
    split; [simpl; lia |].
    split; [unfold uploads; simpl; rewrite Hv; simpl; lia | exact Hs].
Qed.

Lemma rmw_loop_outcome (self : HTTPLocation) (modification_cb : ModificationCb)
    (url_endpoint base_url : string) (n : nat) :
  ∀ (k : nat) (headers : Headers) (w : World),
    let r := rmw_loop self modification_cb url_endpoint base_url (seq k n)
               headers w in
    ∃ (new : list Exchange) (j : nat),
      wire (snd r) = (wire w ++ new)%list ∧
      (length new ≤ 2 * n)%nat ∧ (uploads new ≤ n)%nat ∧ (j ≤ n)%nat ∧
      slept (snd r) = (slept w ++ seq k j)%list ∧
      match fst r with
      | Done (PBool true) => committed base_url cache_file new (snd r)
      | Done PNone => j = n ∧ uploads new = n
      | Done _ => False
      | Raised _ => True
      end.
Proof.
  induction n as [| n IH]; intros k headers w; cbv zeta.
  - exists [], 0%nat. simpl. rewrite !app_nil_r. repeat split; auto.
  - cbn [seq rmw_loop].
    pose proof (rmw_attempt_outcome self modification_cb url_endpoint base_url
                  k headers w) as (new1 & Hw1 & Hl1 & Hu1 & Hout).
    cbv zeta in Hw1, Hout.
    destruct (rmw_attempt self modification_cb url_endpoint base_url k headers w)
      as [[[[| | v] headers']|e] w1]; simpl in Hw1, Hout.
    + exists new1, 0%nat. simpl. rewrite app_nil_r.
      repeat split; auto; lia.
    + destruct Hout as [Hs1 Hu1'].
      specialize (IH (S k) headers' w1). cbv zeta in IH.
      destruct IH as (new2 & j & Hw2 & Hl2 & Hu2 & Hj & Hs2 & Hout2).
      exists (new1 ++ new2)%list, (S j).
      split; [rewrite Hw2, Hw1, app_assoc; reflexivity |].
      split; [rewrite length_app; lia |].
      split; [rewrite uploads_app; lia |].
      split; [lia |].
      split; [rewrite Hs2, Hs1, <- app_assoc; reflexivity |].
      destruct (fst (rmw_loop _ _ _ _ _ _ w1)) as [[| [] |]|]; auto.
      * destruct Hout2 as [-> Hn]. rewrite uploads_app. split; lia.
      * destruct Hout2 as (earlier & req & resp & g & He & Hrest).
        exists (new1 ++ earlier)%list, req, resp, g.
        split; [rewrite He, app_assoc; reflexivity | exact Hrest].
    + destruct Hout as (Hs1 & -> & Hc).
      exists new1, 0%nat. simpl. rewrite app_nil_r.
      repeat split; auto; lia.
    + exists new1, 0%nat. simpl. rewrite app_nil_r.
      repeat split; auto; lia.
Qed.

(** X14. One call of [read_modify_write_local_file], against any server and
    with any callback, makes at most five uploads and at most ten requests;
    its sleeps are 0, 1, 2, ... tenths of a second, in this order and at
    most five of them (one second in all). *)
Theorem read_modify_write_bounded (self : HTTPLocation)
    (modification_cb : ModificationCb) (w : World) :
  let r := read_modify_write_local_file self modification_cb w in
  ∃ (new : list Exchange) (j : nat),
    wire (snd r) = (wire w ++ new)%list ∧
    (length new ≤ 10)%nat ∧ (uploads new ≤ 5)%nat ∧ (j ≤ 5)%nat ∧
    slept (snd r) = (slept w ++ seq 0 j)%list.
Proof.
  cbv zeta. unfold read_modify_write_local_file.
  destruct (_get_parameters self None ∅)
    as [[[url_endpoint params] headers] base_url].
  pose proof (rmw_loop_outcome self modification_cb url_endpoint base_url 5
                0%nat headers w) as (new & j & H1 & H2 & H3 & H4 & H5 & _).
  exists new, j. repeat split; auto.
Qed.

(** X15. [read_modify_write_local_file] returns [True] or [None], nothing
    else. It returns [True] only when the last exchange of the call is a PUT
    answered ok with an ETag; the cache then records that generation and
    holds the uploaded body at its path for it. It returns [None] only after
    five uploads and all five sleeps. *)
Theorem read_modify_write_result (self : HTTPLocation)
    (modification_cb : ModificationCb) (w : World) :
  let '(_, _, _, base_url) := _get_parameters self None ∅ in
  let r := read_modify_write_local_file self modification_cb w in
  ∃ new : list Exchange,
    wire (snd r) = (wire w ++ new)%list ∧
    match fst r with
    | Done (PBool true) => committed base_url cache_file new (snd r)
    | Done PNone =>
        uploads new = 5%nat ∧
        slept (snd r) = (slept w ++ [0; 1; 2; 3; 4])%nat%list
    | Done _ => False
    | Raised _ => True
    end.
Proof.
  unfold read_modify_write_local_file.
  destruct (_get_parameters self None ∅)
    as [[[url_endpoint params] headers] base_url].
  pose proof (rmw_loop_outcome self modification_cb url_endpoint base_url 5
                0%nat headers w) as (new & j & H1 & _ & _ & _ & H5 & Hout).
  cbv zeta in *. exists new. split; [exact H1 |].
  destruct (fst (rmw_loop _ _ _ _ _ _ w)) as [[| [] |]|]; auto.
  destruct Hout as [-> Hu]. split; [exact Hu | exact H5].
Qed.

Lemma rmw_attempt_scratch (self : HTTPLocation)
    (modification_cb : ModificationCb) (url_endpoint base_url : string)
    (retry : nat) (headers : Headers) (w w1 : World) (msg : string) :
  get_local_filename self None None ∅ w = (Raised (IOError msg), w1) →
  let scratch := mkstemp (files w1) in
  let w1' := with_files (<[scratch := ""]> (files w1)) w1 in
  rmw_attempt self modification_cb url_endpoint base_url retry headers w =
    match rmw_modify_upload modification_cb url_endpoint base_url retry
            scratch None true headers w1' with
    | (Done (flow, flag', headers'), w2) =>
        rmw_finally flag' scratch (Done (flow, headers')) w2
    | (Raised e, w2) => rmw_finally true scratch (Raised e) w2
    end.
Proof.
  intros Hget. cbv zeta. unfold rmw_attempt.
  rewrite rmw_materialize_cases, Hget. reflexivity.
Qed.

Lemma rmw_attempt_cached (self : HTTPLocation)
    (modification_cb : ModificationCb) (url_endpoint base_url : string)
    (retry : nat) (headers : Headers) (w w1 : World) (name : string) :
  get_local_filename self None None ∅ w = (Done (PStr name), w1) →
  rmw_attempt self modification_cb url_endpoint base_url retry headers w =
    match rmw_modify_upload modification_cb url_endpoint base_url retry
            name (cache w1 !! base_url) false headers w1 with
    | (Done (flow, flag', headers'), w2) =>
        rmw_finally flag' name (Done (flow, headers')) w2
    | (Raised e, w2) => rmw_finally false name (Raised e) w2
    end.
Proof.
  intros Hget. unfold rmw_attempt.
  rewrite rmw_materialize_cases, Hget. reflexivity.
Qed.

(** X17. A PUT that fails with a status other than 304 ends the call at
    once: against a server that fails every request with such a status, and
    with a callback that returns and leaves its file in place, the call
    raises the "Unable to update" IOError after a single upload and never
    sleeps. *)
Theorem other_failure_raises_at_once (self : HTTPLocation)
    (modification_cb : ModificationCb) (w : World) :
  (∀ hist req, ok (transport hist req) = false ∧
               status_code (transport hist req) ≠ 304) →
  (∀ name fs, ∃ fs' data,
     modification_cb name fs = (None, fs') ∧ fs' !! name = Some data) →
  let r := read_modify_write_local_file self modification_cb w in
  fst r = Raised (IOError ("Unable to update " +:+ str_of_location self)) ∧
  slept (snd r) = slept w ∧
  ∃ new, wire (snd r) = (wire w ++ new)%list ∧ uploads new = 1%nat.
Proof.
  intros Hsrv Hcb. cbv zeta. unfold read_modify_write_local_file.
  pose proof (get_local_filename_cases self None None ∅ w) as Hget.
  pose proof (get_local_filename_slept self None None ∅ w) as Hslept.
  destruct (_get_parameters self None ∅)
    as [[[url_endpoint params] headers] base_url].
  cbv zeta in Hget.
  destruct (Hsrv (wire w)
              (get_request url_endpoint params
                 (validated (cache w !! base_url) headers) true))
    as [Hok H304].
  apply Z.eqb_neq in H304. rewrite H304, Hok in Hget. cbn [negb] in Hget.
  assert (∃ w1, get_local_filename self None None ∅ w
                = (Raised (IOError (text (transport (wire w)
                     (get_request url_endpoint params
                        (validated (cache w !! base_url) headers) true)))), w1)
                ∧ wire w1 = (wire w ++ [(get_request url_endpoint params
                        (validated (cache w !! base_url) headers) true,
                      transport (wire w) (get_request url_endpoint params
                        (validated (cache w !! base_url) headers) true))])%list)
    as (w1 & Hg & Hw1).
  { rewrite Hget. unfold mbind, M_bind, expire, mret, M_ret.
    destruct (status_code _ =? 404);
      rewrite report_error_without_routine, Hok; eexists; split; reflexivity. }
  assert (slept w1 = slept w) as Hs1 by (rewrite Hg in Hslept; exact Hslept).
  cbn [seq rmw_loop].
  rewrite (rmw_attempt_scratch _ _ _ _ _ _ _ _ _ Hg).
  set (scratch := mkstemp (files w1)).
  destruct (Hcb scratch (<[scratch := ""]> (files w1))) as (fs & data & Hc & Hfile).
  rewrite (rmw_modify_upload_sends modification_cb url_endpoint base_url
             0 scratch None true headers
             (with_files (<[scratch := ""]> (files w1)) w1) fs data Hc Hfile).
  match goal with
  | |- context [transport ?h ?r] =>
      destruct (Hsrv h r) as [Hok2 H3042]; apply Z.eqb_neq in H3042;
      rewrite Hok2, H3042
  end.
  unfold rmw_finally, unlink. simpl. rewrite Hfile. simpl.
  split; [reflexivity |]. split; [exact Hs1 |].
  eexists [(_, _); (_, _)]. split.
  - rewrite Hw1, <- app_assoc. reflexivity.
  - reflexivity.
Qed.

(** Without a routine, the file name a download returns is the cache's own
    path for the generation it records afterwards. *)
Lemma get_local_filename_returns_cache_file (self : HTTPLocation)
    (if_modified_since : option Z) (kw : Kwargs) (w w1 : World) (name : string) :
  let '(_, _, _, base_url) := _get_parameters self if_modified_since kw in
  get_local_filename self None if_modified_since kw w = (Done (PStr name), w1) →
  name = cache_file base_url (cache w1 !! base_url).
Proof.
  pose proof (get_local_filename_cases self None if_modified_since kw w) as H.
  destruct (_get_parameters self if_modified_since kw)
    as [[[url_endpoint params] headers] base_url].
  cbv zeta in H. rewrite H. clear H.
  destruct (status_code _ =? 304).
  { intros [= <- <-]. reflexivity. }
  destruct (ok _) eqn:Hok; cbn [negb].
  - destruct (etag _); try discriminate.
    unfold mbind, M_bind. rewrite report_error_without_routine, Hok.
    unfold mret, M_ret. intros [= <- <-]. simpl.
    rewrite lookup_insert_eq. reflexivity.
  - unfold mbind, M_bind.
    destruct (status_code _ =? 404); unfold expire, mret, M_ret;
      rewrite report_error_without_routine, Hok; discriminate.
Qed.

(** X18. The callback edits the cached copy in place. When the download
    succeeded, the file handed to the callback is the cache's own file for
    the recorded generation; when the upload then fails (a conflict or any
    other failure), the callback's edits stay in the local files while the
    cache still records the old generation for them. *)
Theorem failed_upload_keeps_callback_edits (self : HTTPLocation)
    (modification_cb : ModificationCb) (url_endpoint : string) (retry : nat)
    (headers : Headers) (w w1 : World) (name : string) (fs : Files)
    (data : string) (req : Request) (resp : Response) :
  let '(_, _, _, base_url) := _get_parameters self None ∅ in
  let r := rmw_attempt self modification_cb url_endpoint base_url retry
             headers w in
  get_local_filename self None None ∅ w = (Done (PStr name), w1) →
  modification_cb name (files w1) = (None, fs) →
  fs !! name = Some data →
  wire (snd r) = (wire w1 ++ [(req, resp)])%list →
  ok resp = false →
  name = cache_file base_url (cache w1 !! base_url) ∧
  files (snd r) = fs ∧
  files (snd r) !! name = Some data ∧
  cache (snd r) = cache w1.
Proof.
  pose proof (get_local_filename_returns_cache_file self None ∅ w w1 name) as Hn.
  destruct (_get_parameters self None ∅)
    as [[[url_endpoint' params] headers0] base_url].
  cbv zeta. intros Hget Hcb Hfile.
  rewrite (rmw_attempt_cached _ _ _ _ _ _ _ _ _ Hget).
  rewrite (rmw_modify_upload_sends _ _ _ _ _ _ _ _ _ _ _ Hcb Hfile).
  unfold rmw_finally.
  destruct (ok (transport _ _)) eqn:Hok0.
  - destruct (etag (transport _ _)); simpl; intros Hwire Hok;
      apply app_inj_tail in Hwire as [_ [= _ Hresp]];
      rewrite Hresp in Hok0; congruence.
  - destruct (status_code (transport _ _) =? 304); simpl; intros _ _;
      (split; [exact (Hn Hget) |]); auto.
Qed.

Lemma rmw_loop_cons (self : HTTPLocation) (modification_cb : ModificationCb)
    (url_endpoint base_url : string) (retry : nat) (rest : list nat)
    (headers : Headers) (w : World) :
  rmw_loop self modification_cb url_endpoint base_url (retry :: rest) headers w
  = match rmw_attempt self modification_cb url_endpoint base_url retry
            headers w with
    | (Done (Return v, _), w') => (Done v, w')
    | (Done (Continue, headers'), w') =>
        rmw_loop self modification_cb url_endpoint base_url rest headers' w'
    | (Done (Fallthrough, _), w') =>
        (Raised (IOError ("Unable to update " +:+ str_of_location self)), w')
    | (Raised e, w') => (Raised e, w')
    end.
Proof. reflexivity. Qed.

(** X16. With answers marked as the requests library marks them (ok for
    every status below 400, so for 304 too) the test
    [resp.status_code == 304] is never reached with a 304, and the loop
    never comes round: one call makes one attempt, which is at most two
    requests and at most one upload, it never sleeps, and it never runs out
    of attempts, so it never returns [None]. *)
Theorem single_attempt_under_requests (self : HTTPLocation)
    (modification_cb : ModificationCb) (w : World) :
  (∀ hist req, requests_ok (transport hist req)) →
  let r := read_modify_write_local_file self modification_cb w in
  (∃ new : list Exchange,
     wire (snd r) = (wire w ++ new)%list ∧
     (length new ≤ 2)%nat ∧ (uploads new ≤ 1)%nat) ∧
  slept (snd r) = slept w ∧
  fst r ≠ Done PNone.
Proof.
  intros Hreq. cbv zeta. unfold read_modify_write_local_file.
  destruct (_get_parameters self None ∅)
    as [[[url_endpoint params] headers] base_url].
  change (seq 0 5) with (0 :: seq 1 4)%nat. rewrite rmw_loop_cons.
  pose proof (λ headers',
                continue_unreachable_under_requests self modification_cb
                  url_endpoint base_url 0 headers headers' w Hreq) as Hnc.
  pose proof (rmw_attempt_outcome self modification_cb url_endpoint base_url
                0 headers w) as (new & Hw & Hl & Hu & Hout).
  cbv zeta in Hw, Hout.
  destruct (rmw_attempt self modification_cb url_endpoint base_url 0 headers w)
    as [[[[| | v] headers']|e] w1]; simpl in Hw, Hout, Hnc |- *.
  - split; [exists new; auto |]. split; [exact Hout | discriminate].
  - contradiction (Hnc headers'). reflexivity.
  - destruct Hout as (Hs & -> & _).
    split; [exists new; auto |]. split; [exact Hs | discriminate].
  - split; [exists new; auto |]. split; [exact Hout | discriminate].
Qed.

Arguments rmw_loop : simpl never.

(** X19. [read_modify_write] on an object the server does not have: the
    byte transformation is applied to the empty string and its result is
    the body of the first upload. Whatever happens, the call never returns
    [True]: the result of the file-level loop is dropped. *)
Theorem read_modify_write_creates_from_empty (self : HTTPLocation)
    (modification_cb : string → Outcome string) (w w1 : World)
    (msg new_data : string) :
  let '(url_endpoint, _, headers, _) := _get_parameters self None ∅ in
  let r := read_modify_write self modification_cb w in
  get_local_filename self None None ∅ w = (Raised (IOError msg), w1) →
  modification_cb "" = Done new_data →
  (∃ resp later,
     wire (snd r) =
       (wire w1 ++ (put_request url_endpoint (Some new_data) ∅ headers, resp)
                     :: later)%list) ∧
  (∀ v, fst r = Done v → v = PNone).
Proof.
  unfold read_modify_write, read_modify_write_local_file.
  destruct (_get_parameters self None ∅)
    as [[[url_endpoint params] headers] base_url].
  cbv zeta. intros Hget Hf.
  unfold mbind, M_bind, mret, M_ret. split.
  2: { intros v. destruct (rmw_loop _ _ _ _ _ _ w) as [[a|e] w'];
         simpl; intros [=]; congruence. }
  assert (∃ resp later,
            wire (snd (rmw_loop self (read_modify_write_cb modification_cb)
                         url_endpoint base_url (seq 0 5) headers w))
            = (wire w1 ++ (put_request url_endpoint (Some new_data) ∅ headers,
                           resp) :: later)%list) as (resp & later & H).
  { change (seq 0 5) with (0 :: seq 1 4)%nat. rewrite rmw_loop_cons.
    rewrite (rmw_attempt_scratch _ _ _ _ _ _ _ _ _ Hget).
    set (scratch := mkstemp (files w1)).
    assert (read_modify_write_cb modification_cb scratch
              (files (with_files (<[scratch := ""]> (files w1)) w1))
            = (None, <[scratch := new_data]> (<[scratch := ""]> (files w1))))
      as Hcb.
    { unfold read_modify_write_cb. simpl. rewrite lookup_insert_eq, Hf.
      reflexivity. }
    rewrite (rmw_modify_upload_sends _ url_endpoint base_url 0 scratch None
               true headers _ _ new_data Hcb (lookup_insert_eq _ _ _)).
    unfold preconditioned, rmw_finally, unlink.
    destruct (ok (transport _ _)).
    - destruct (etag (transport _ _)); simpl; rewrite ?lookup_insert_eq;
        simpl; do 2 eexists; reflexivity.
    - destruct (status_code (transport _ _) =? 304); simpl;
        rewrite lookup_insert_eq; simpl.
      + match goal with
        | |- context [rmw_loop ?s ?c ?u ?b ?l ?h ?w0] =>
            change l with (seq 1 4);
            pose proof (rmw_loop_outcome s c u b 4 1%nat h w0)
              as (new & j & Hw & _)
        end.
        cbv zeta in Hw. rewrite Hw. simpl.
        do 2 eexists. rewrite <- app_assoc. reflexivity.
      + do 2 eexists. reflexivity. }
  exists resp, later.
  destruct (rmw_loop _ _ _ _ _ _ w) as [[a|e] w']; simpl in *; exact H.
Qed.

(** X20. An exception raised by the byte transformation of
    [read_modify_write] leaves the call as it is, and nothing is uploaded.
    For an object the server does not have, the scratch file is removed
    again; for an object that was downloaded, the world is exactly as the
    download left it, the cached copy included. *)
Theorem read_modify_write_propagates_exception (self : HTTPLocation)
    (modification_cb : string → Outcome string) (w w1 : World) (e : Exn) :
  (∀ msg,
     get_local_filename self None None ∅ w = (Raised (IOError msg), w1) →
     modification_cb "" = Raised e →
     read_modify_write self modification_cb w
       = (Raised e, with_files (delete (mkstemp (files w1)) (files w1)) w1)) ∧
  (∀ name data,
     get_local_filename self None None ∅ w = (Done (PStr name), w1) →
     files w1 !! name = Some data →
     modification_cb data = Raised e →
     read_modify_write self modification_cb w = (Raised e, w1)).
Proof.
  split.
  - intros msg Hget Hf.
    unfold read_modify_write, read_modify_write_local_file.
    destruct (_get_parameters self None ∅)
      as [[[url_endpoint params] headers] base_url].
    unfold mbind, M_bind.
    change (seq 0 5) with (0 :: seq 1 4)%nat. rewrite rmw_loop_cons.
    rewrite (rmw_attempt_scratch _ _ _ _ _ _ _ _ _ Hget).
    set (scratch := mkstemp (files w1)).
    assert (read_modify_write_cb modification_cb scratch
              (files (with_files (<[scratch := ""]> (files w1)) w1))
            = (Some e, <[scratch := ""]> (files w1))) as Hcb.
    { unfold read_modify_write_cb. simpl. rewrite lookup_insert_eq, Hf.
      reflexivity. }
    rewrite (rmw_modify_upload_aborts _ _ _ _ _ _ _ _ _ _ _ Hcb)
      by discriminate.
    unfold rmw_finally, unlink. simpl. rewrite lookup_insert_eq. simpl.
    unfold with_files. simpl. rewrite delete_insert_eq. reflexivity.
  - intros name data Hget Hfile Hf.
    unfold read_modify_write, read_modify_write_local_file.
    destruct (_get_parameters self None ∅)
      as [[[url_endpoint params] headers] base_url].
    unfold mbind, M_bind.
    change (seq 0 5) with (0 :: seq 1 4)%nat. rewrite rmw_loop_cons.
    rewrite (rmw_attempt_cached _ _ _ _ _ _ _ _ _ Hget).
    assert (read_modify_write_cb modification_cb name (files w1)
            = (Some e, files w1)) as Hcb.
    { unfold read_modify_write_cb. rewrite Hfile, Hf. reflexivity. }
    rewrite (rmw_modify_upload_aborts _ _ _ _ _ _ _ _ _ _ _ Hcb)
      by discriminate.
    unfold rmw_finally. simpl. destruct w1; reflexivity.
Qed.

End ReadModifyWrite.

(** ** Instances of the further properties *)

Lemma cache_hit_round_trip_witness :
  let E := demo_env (versioned_server "g1" "v1") in
  let r1 := get_local_filename (env := E) demo_location None None ∅
              empty_world in
  let r2 := get_local_filename (env := E) demo_location None None ∅ (snd r1) in
  fst r1 = fst r2 ∧
  files (snd r2) !! "/cache/clients/C.1/manifest@g1" = Some "v1".
Proof.
  intros E r1 r2.
  pose proof (cache_hit_round_trip (env := E) demo_location None None None ∅
                empty_world
                (get_request demo_url ∅ demo_headers true)
                (get_request demo_url ∅
                   (<["If-None-Match" := "g1"]> demo_headers) true)
                (answer 200 true "v1" (ETagToken "g1"))
                (answer 304 true "" ETagMissing) "g1") as H.
  cbv beta iota zeta delta [_get_parameters] in H.
  destruct H as (name & H1 & H2 & _ & H4 & _);
    try (vm_compute; reflexivity); try discriminate.
  fold r1 in H1. fold r1 r2 in H2, H4.
  split; [congruence |].
  assert (name = "/cache/clients/C.1/manifest@g1") as <-
    by (assert (fst r1 = Done (PStr "/cache/clients/C.1/manifest@g1")) as E1
          by (vm_compute; reflexivity); congruence).
  exact H4.
Defined.

Lemma failed_download_keeps_cache_witness :
  let E := demo_env (failing_server 500 "boom") in
  let w := with_cache {[ demo_path := "g1" ]} empty_world in
  let r := get_local_filename (env := E) demo_location None None ∅ w in
  cache (snd r) !! demo_path = Some "g1" ∧ fst r = Raised (IOError "boom").
Proof.
  intros E w r.
  destruct (failed_download_keeps_cache (env := E) demo_location None None ∅ w
              (get_request demo_url ∅
                 (<["If-None-Match" := "g1"]> demo_headers) true)
              (answer 500 false "boom" ETagMissing))
    as (Hc & _ & Hr);
    try (vm_compute; reflexivity); try discriminate.
  fold r in Hc, Hr. split; [rewrite Hc; reflexivity | exact (Hr eq_refl)].
Defined.

Lemma download_without_etag_raises_witness :
  let E := demo_env bare_server in
  let r := get_local_filename (env := E) demo_location
             (Some (const_routine PNone)) None ∅ empty_world in
  fst r = Raised (KeyError "ETag") ∧ delivered (snd r) = [].
Proof.
  intros E r.
  destruct (download_without_etag_raises (env := E) demo_location
              (Some (const_routine PNone)) None ∅ empty_world
              (get_request demo_url ∅ demo_headers true)
              (answer 200 true "v1" ETagMissing))
    as (Hr & _ & _ & Hd);
    try (vm_compute; reflexivity); try discriminate.
  fold r in Hr, Hd. split; [exact Hr | exact Hd].
Defined.

Lemma upload_local_file_unlinks_iff_returns_witness :
  let E := demo_env (failing_server 403 "denied") in
  let w := with_files {[ "/var/tmp/report" := "payload" ]} empty_world in
  let r := upload_local_file (env := E) demo_location (Some "/var/tmp/report")
             None None true None ∅ w in
  fst r = Raised (IOError "denied") ∧
  files (snd r) !! "/var/tmp/report" = Some "payload".
Proof.
  intros E w r.
  pose proof (upload_local_file_unlinks_iff_returns (env := E) demo_location
                "/var/tmp/report" "payload" None None None ∅ w
                eq_refl eq_refl) as H.
  fold r in H.
  assert (fst r = Raised (IOError "denied")) as Hr by (vm_compute; reflexivity).
  rewrite Hr in H. destruct H as (Hf & _).
  split; [exact Hr | rewrite Hf; reflexivity].
Defined.

Lemma upload_local_file_missing_file_witness :
  upload_local_file (env := demo_env (failing_server 403 "denied"))
    demo_location (Some "/var/tmp/report") None None true None ∅ empty_world
  = (Raised (IOError "/var/tmp/report"), empty_world).
Proof.
  apply (upload_local_file_missing_file
           (env := demo_env (failing_server 403 "denied")));
    reflexivity.
Defined.

Lemma list_files_in_server_order_witness :
  ∃ l, fst (list_files (env := listing_env) demo_location None ∅ empty_world)
       = Done l ∧ primitive <$> l = ["a"; "b"].
Proof.
  pose proof (list_files_in_server_order (env := listing_env) demo_location
                None ∅ empty_world) as H.
  cbv beta iota zeta delta [_get_parameters] in H.
  exact (H eq_refl).
Defined.

Lemma New_anchoring_idempotent_witness :
  New (env := demo_env bare_server) (Some "/clients") None 0 None "/" false
  = New (env := demo_env bare_server) (Some "clients") None 0 None "/" false.
Proof.
  apply (New_anchoring_idempotent (env := demo_env bare_server) "clients").
  reflexivity.
Defined.

Lemma attempt_uploads_callback_output_witness :
  let E := demo_env contended_server in
  let r := rmw_modify_upload (env := E) append_x demo_url demo_path 0
             "/cache/clients/C.1/manifest@g1" (Some "g1") false demo_headers
             cached_world in
  ∃ resp,
    wire (snd r) =
      [(put_request demo_url (Some "v1x") ∅
          (<["If-Match" := "g1"]> demo_headers), resp)].
Proof.
  intros E r.
  destruct (attempt_uploads_callback_output (env := E) append_x demo_url
              demo_path 0 "/cache/clients/C.1/manifest@g1" (Some "g1") false
              demo_headers cached_world
              (<["/cache/clients/C.1/manifest@g1" := "v1x"]> (files cached_world))
              "v1x")
    as [[resp Hw] _]; try (vm_compute; reflexivity).
  exists resp. exact Hw.
Defined.

Lemma single_attempt_under_requests_witness :
  let r := read_modify_write_local_file
             (env := demo_env overtaken_server)
             demo_location append_x empty_world in
  (∀ hist req, requests_ok (overtaken_server hist req)) ∧
  (∃ new : list Exchange,
     wire (snd r) = (wire empty_world ++ new)%list ∧
     (length new ≤ 2)%nat ∧ (uploads new ≤ 1)%nat) ∧
  slept (snd r) = slept empty_world ∧
  fst r ≠ Done PNone.
Proof.
  assert (∀ hist req,
            requests_ok (transport (Env := demo_env overtaken_server) hist req))
    as Hreq.
  { intros hist req. simpl. unfold overtaken_server.
    destruct (verb req); vm_compute; reflexivity. }
  split; [exact Hreq |].
  exact (single_attempt_under_requests (env := demo_env overtaken_server)
           demo_location append_x empty_world Hreq).
Defined.

Lemma other_failure_raises_at_once_witness :
  let r := read_modify_write_local_file
             (env := demo_env (failing_server 500 "boom"))
             demo_location append_x empty_world in
  fst r = Raised (IOError "Unable to update /clients/C.1") ∧ slept (snd r) = [].
Proof.
  intros r.
  destruct (other_failure_raises_at_once
              (env := demo_env (failing_server 500 "boom"))
              demo_location append_x empty_world) as (H1 & H2 & _).
  - intros hist req. split; [reflexivity | discriminate].
  - intros name fs. do 2 eexists. split; [reflexivity | apply lookup_insert_eq].
  - split; [exact H1 | exact H2].
Defined.

Lemma failed_upload_keeps_callback_edits_witness :
  let E := demo_env contended_server in
  let r := rmw_attempt (env := E) demo_location append_x demo_url demo_path 0
             demo_headers cached_world in
  files cached_world !! "/cache/clients/C.1/manifest@g1" = Some "v1" ∧
  files (snd r) !! "/cache/clients/C.1/manifest@g1" = Some "v1x" ∧
  cache (snd r) !! demo_path = Some "g1".
Proof.
  intros E r.
  pose proof (failed_upload_keeps_callback_edits (env := E) demo_location
                append_x demo_url 0 demo_headers cached_world
                (snd (get_local_filename (env := E) demo_location None None ∅
                        cached_world))
                "/cache/clients/C.1/manifest@g1"
                (<["/cache/clients/C.1/manifest@g1" := "v1x"]>
                   (files cached_world))
                "v1x"
                (put_request demo_url (Some "v1x") ∅
                   (<["If-Match" := "g1"]> demo_headers))
                (answer 304 false "" ETagMissing)) as H.
  cbv beta iota zeta delta [_get_parameters] in H.
  destruct H as (_ & _ & Hf & Hc); try (vm_compute; reflexivity).
  split; [reflexivity |]. split; [exact Hf |].
  change (cache (snd r)
          = cache (snd (get_local_filename (env := E) demo_location None None ∅
                          cached_world))) in Hc.
  rewrite Hc. vm_compute. reflexivity.
Defined.

Lemma read_modify_write_creates_from_empty_witness :
  let E := demo_env (conflict_server false) in
  let r := read_modify_write (env := E) demo_location append_new empty_world in
  fst r = Done PNone ∧
  ∃ resp later,
    wire (snd r) =
      (wire (snd (get_local_filename (env := E) demo_location None None ∅
                    empty_world))
       ++ (put_request demo_url (Some "new") ∅ demo_headers, resp) :: later)%list.
Proof.
  intros E r.
  pose proof (read_modify_write_creates_from_empty (env := E) demo_location
                append_new empty_world
                (snd (get_local_filename (env := E) demo_location None None ∅
                        empty_world))
                "not found" "new") as H.
  cbv beta iota zeta delta [_get_parameters] in H.
  destruct H as (Hw & Hv); try (vm_compute; reflexivity).
  split; [vm_compute; reflexivity | exact Hw].
Defined.

Lemma read_modify_write_propagates_exception_witness :
  read_modify_write (env := demo_env (conflict_server false)) demo_location
    refuse empty_world
  = (Raised (CallbackError "boom"),
     snd (get_local_filename (env := demo_env (conflict_server false))
            demo_location None None ∅ empty_world)) ∧
  fst (read_modify_write (env := demo_env contended_server) demo_location
         refuse cached_world) = Raised (CallbackError "boom").
Proof.
  destruct (read_modify_write_propagates_exception
              (env := demo_env (conflict_server false)) demo_location refuse
              empty_world
              (snd (get_local_filename (env := demo_env (conflict_server false))
                      demo_location None None ∅ empty_world))
              (CallbackError "boom")) as [HA _].
  destruct (read_modify_write_propagates_exception
              (env := demo_env contended_server) demo_location refuse
              cached_world
              (snd (get_local_filename (env := demo_env contended_server)
                      demo_location None None ∅ cached_world))
              (CallbackError "boom")) as [_ HB].
  split.
  - rewrite (HA "not found" ltac:(vm_compute; reflexivity) eq_refl).
    vm_compute. reflexivity.
  - rewrite (HB "/cache/clients/C.1/manifest@g1" "v1"
               ltac:(vm_compute; reflexivity) ltac:(vm_compute; reflexivity)
               eq_refl).
    reflexivity.
Defined.
